(** * Edge patient monitoring: the imputation controller

    A shallow embedding of [merged_sepsis_news/src/controller.py]: the
    [Planter] and [Sensor] headers, the imputation helper [impute_value],
    the audit log writer [log_imputation], the packet processor
    [parse_packet], the packet-in handler and the heartbeat sender
    [heartbeat_loop], together with the properties the design document
    states about them.

    Python integers are [Z]; wire payloads are [list byte]; the process-wide
    mutable state of the controller (the [random] generator, the CSV file,
    standard output, the switch connection and the wall clock) is one record
    threaded through a state-and-exception monad.  scapy's dissector is a
    parameter of the functions that call it.

    The per-patient window assembly of the design document runs in the
    switch pipeline; module [Window] renders it from the document, and the
    statements about it are kept apart from those about the controller. *)

From Stdlib Require Import ZArith List Bool Lia.
From Stdlib Require Import Strings.Byte.
From stdpp Require Import gmap list.
Import ListNotations.

Local Open Scope Z_scope.

(** ** Global configuration (controller.py, lines 26-29, 61, 76) *)

Definition CPU_PORT : Z := 510.
Definition NUM_PATIENTS : Z := 2000.
Definition HEARTBEAT_NS : Z := 15.
Definition ETHERTYPE_PLANTER : Z := 0x1234.
Definition ETHERTYPE_SENSOR : Z := 0x1235.

(** ** Fixed-width big-endian fields, as scapy builds and dissects them *)

Definition byte_of_Z (v : Z) : byte :=
  match Byte.of_N (Z.to_N (Z.land v 255)) with
  | Some b => b
  | None => x00
  end.

Definition Z_of_byte (b : byte) : Z := Z.of_N (Byte.to_N b).

(** [be_encode n v]: the low [8*n] bits of [v] in network byte order. *)
Fixpoint be_encode (n : nat) (v : Z) : list byte :=
  match n with
  | O => []
  | S k => byte_of_Z (Z.shiftr v (8 * Z.of_nat k)) :: be_encode k v
  end.

Definition be_decode (bs : list byte) : Z :=
  fold_left (fun acc b => acc * 256 + Z_of_byte b) bs 0.

(** ** The Planter header (controller.py, lines 38-58) *)

Module Planter.
Record t : Type := mk {
  P : Z;            (* StrFixedLenField, length 1 *)
  Four : Z;         (* StrFixedLenField, length 1 *)
  version : Z;      (* ByteField *)
  type : Z;         (* ByteField *)
  patient_id : Z;   (* IntField *)
  timestamp : Z;    (* BitField, 48 bits *)
  feature0 : Z;     (* ShortField *)
  feature1 : Z;
  feature2 : Z;
  feature3 : Z;
  feature4 : Z;
  feature5 : Z;
  feature6 : Z;
  feature7 : Z;
  feature8 : Z;
  feature9 : Z;
  result : Z        (* IntField *)
}.

(** Field defaults of the class. *)
Definition default : t :=
  mk 0x50 0x34 0x01 0x01 0 0 0 0 0 0 0 0 0 0 0 0 0.

(** [getattr(planter, f"feature{sensor_id}")].  The controller only ever
    builds the names feature0 .. feature9; any other attribute name makes
    Python raise [AttributeError], rendered here as [None]. *)
Definition getattr (p : t) (sensor_id : Z) : option Z :=
  match sensor_id with
  | 0 => Some (feature0 p)
  | 1 => Some (feature1 p)
  | 2 => Some (feature2 p)
  | 3 => Some (feature3 p)
  | 4 => Some (feature4 p)
  | 5 => Some (feature5 p)
  | 6 => Some (feature6 p)
  | 7 => Some (feature7 p)
  | 8 => Some (feature8 p)
  | 9 => Some (feature9 p)
  | _ => None
  end.

(** [setattr(planter, f"feature{sensor_id}", v)]; the object is updated in
    place, every other field keeps its value. *)
Definition setattr (p : t) (sensor_id : Z) (v : Z) : t :=
  let '(mk a b c d e f f0 f1 f2 f3 f4 f5 f6 f7 f8 f9 r) := p in
  match sensor_id with
  | 0 => mk a b c d e f v f1 f2 f3 f4 f5 f6 f7 f8 f9 r
  | 1 => mk a b c d e f f0 v f2 f3 f4 f5 f6 f7 f8 f9 r
  | 2 => mk a b c d e f f0 f1 v f3 f4 f5 f6 f7 f8 f9 r
  | 3 => mk a b c d e f f0 f1 f2 v f4 f5 f6 f7 f8 f9 r
  | 4 => mk a b c d e f f0 f1 f2 f3 v f5 f6 f7 f8 f9 r
  | 5 => mk a b c d e f f0 f1 f2 f3 f4 v f6 f7 f8 f9 r
  | 6 => mk a b c d e f f0 f1 f2 f3 f4 f5 v f7 f8 f9 r
  | 7 => mk a b c d e f f0 f1 f2 f3 f4 f5 f6 v f8 f9 r
  | 8 => mk a b c d e f f0 f1 f2 f3 f4 f5 f6 f7 v f9 r
  | 9 => mk a b c d e f f0 f1 f2 f3 f4 f5 f6 f7 f8 v r
  | _ => p
  end.

(** The 38 bytes of the header, in [fields_desc] order. *)
Definition build (p : t) : list byte :=
  be_encode 1 (P p) ++ be_encode 1 (Four p) ++
  be_encode 1 (version p) ++ be_encode 1 (type p) ++
  be_encode 4 (patient_id p) ++ be_encode 6 (timestamp p) ++
  be_encode 2 (feature0 p) ++ be_encode 2 (feature1 p) ++
  be_encode 2 (feature2 p) ++ be_encode 2 (feature3 p) ++
  be_encode 2 (feature4 p) ++ be_encode 2 (feature5 p) ++
  be_encode 2 (feature6 p) ++ be_encode 2 (feature7 p) ++
  be_encode 2 (feature8 p) ++ be_encode 2 (feature9 p) ++
  be_encode 4 (result p).

Definition size : nat := 38.

Definition slice (bs : list byte) (off len : nat) : Z :=
  be_decode (firstn len (skipn off bs)).

(** Dissection of a full-length header. *)
Definition dissect (bs : list byte) : t :=
  mk (slice bs 0 1) (slice bs 1 1) (slice bs 2 1) (slice bs 3 1)
     (slice bs 4 4) (slice bs 8 6)
     (slice bs 14 2) (slice bs 16 2) (slice bs 18 2) (slice bs 20 2)
     (slice bs 22 2) (slice bs 24 2) (slice bs 26 2) (slice bs 28 2)
     (slice bs 30 2) (slice bs 32 2) (slice bs 34 4).
End Planter.

(** ** The Sensor header used for heartbeats (controller.py, lines 67-74) *)

Module Sensor.
Record t : Type := mk {
  patient_id : Z;     (* IntField *)
  sensor_id : Z;      (* IntField, default 999 *)
  timestamp : Z;      (* BitField, 48 bits *)
  feature_value : Z   (* ShortField *)
}.

Definition build (s : t) : list byte :=
  be_encode 4 (patient_id s) ++ be_encode 4 (sensor_id s) ++
  be_encode 6 (timestamp s) ++ be_encode 2 (feature_value s).

Definition size : nat := 16.

Definition dissect (bs : list byte) : t :=
  mk (Planter.slice bs 0 4) (Planter.slice bs 4 4)
     (Planter.slice bs 8 6) (Planter.slice bs 14 2).
End Sensor.


(** ** Ethernet frames

    [Ether(...) / Sensor(...)] and the result of [Ether(raw_payload)]: an
    Ethernet header followed by the layer bound to its EtherType
    ([bind_layers], lines 62 and 77), or by undissected bytes. *)

Inductive Layer : Type :=
| PlanterLayer (planter : Planter.t) (rest : list byte)
| SensorLayer (sensor : Sensor.t) (rest : list byte)
| Raw (load : list byte).

Module Ether.
Record t : Type := mk {
  dst : Z;       (* 48-bit MAC address *)
  src : Z;       (* 48-bit MAC address *)
  type : Z;      (* 16-bit EtherType *)
  payload : Layer
}.
End Ether.

(** [Planter not in pkt] / [pkt[Planter]]. *)
Definition get_Planter (pkt : Ether.t) : option Planter.t :=
  match Ether.payload pkt with
  | PlanterLayer planter _ => Some planter
  | _ => None
  end.

(** [planter = pkt[Planter]] is a reference into [pkt]: a [setattr] on
    [planter] is seen by the later [raw(pkt)].  The functional model writes
    the updated layer back into the frame. *)
Definition set_Planter (pkt : Ether.t) (planter : Planter.t) : Ether.t :=
  match Ether.payload pkt with
  | PlanterLayer _ rest =>
      Ether.mk (Ether.dst pkt) (Ether.src pkt) (Ether.type pkt)
               (PlanterLayer planter rest)
  | _ => pkt
  end.

Definition build_layer (l : Layer) : list byte :=
  match l with
  | PlanterLayer planter rest => Planter.build planter ++ rest
  | SensorLayer sensor rest => Sensor.build sensor ++ rest
  | Raw load => load
  end.

(** [raw(pkt)]: the frame as bytes. *)
Definition raw (pkt : Ether.t) : list byte :=
  be_encode 6 (Ether.dst pkt) ++ be_encode 6 (Ether.src pkt) ++
  be_encode 2 (Ether.type pkt) ++ build_layer (Ether.payload pkt).

(** ** Exceptions and the controller's mutable world *)

Inductive Exn : Type :=
| StructError          (* scapy could not unpack a field *)
| AttributeError       (* getattr on a name the class does not have *)
| RpcError (code : Z)  (* grpc.RpcError from the switch connection *)
| OtherError (code : Z).

Module random.
(** The state of Python's module-level generator: the sequence of raw
    draws still to come and the number already consumed. *)
Record state : Type := mk { draws : nat -> Z; pos : nat }.

(** [random.randint(a, b)]: an integer [a <= n <= b], computed as
    [a + randbelow(b - a + 1)]; one draw is consumed per call. *)
Definition randint (a b : Z) (g : state) : Z * state :=
  (a + draws g (pos g) mod (b - a + 1), mk (draws g) (S (pos g))).
End random.

(** A row of [CSV_LOG]. *)
Record CsvRow : Type := mkRow {
  reception_time : Z;
  row_patient_id : Z;
  row_sensor_id : Z;
  old_value : Z;
  new_value : Z
}.

(** What the controller prints. *)
Inductive Msg : Type :=
| NoPlanterHeader
| Imputing (recv_time sensor_id patient_id cur_val new_val : Z)
| ModifiedPlanter (recv_time patient_id : Z) (planter : Planter.t)
| CompletePlanter (recv_time patient_id : Z) (planter : Planter.t)
| SendingPacketOut (recv_time port : Z)
| ErrorParsing (e : Exn)
| ErrorHeartbeat (pid : Z) (e : Exn)
| SentHeartbeats (time : Z)
| ReceivedPacketIn (len : nat)
| GrpcError (e : Exn).

(** What [switch_conn.PacketIn()] can deliver. *)
Inductive PacketInResult : Type :=
| InNone
| InPacket (payload : list byte)
| InRpcError (code : Z).

(** The switch connection: every [PacketOut] call made so far with whether
    it went through, the calls that will fail, and the pending PacketIns. *)
Record SwitchConn : Type := mkConn {
  packet_outs : list (list byte * bool);
  fails : nat -> list byte -> option Exn;
  inbound : list PacketInResult
}.

Record World : Type := mkWorld {
  rng : random.state;
  csv_log : list CsvRow;
  stdout : list Msg;
  switch_conn : SwitchConn;
  clock : Z
}.

Inductive outcome (A : Type) : Type :=
| Returned (a : A)
| Raised (e : Exn).
Arguments Returned {A} a.
Arguments Raised {A} e.

(** Statements run on the world and either return or raise; what they did
    before raising stays done. *)
Definition M (A : Type) : Type := World -> outcome A * World.

Definition ret {A} (a : A) : M A := fun w => (Returned a, w).

Definition raise {A} (e : Exn) : M A := fun w => (Raised e, w).

Definition bind {A B} (m : M A) (k : A -> M B) : M B :=
  fun w =>
    match m w with
    | (Returned a, w') => k a w'
    | (Raised e, w') => (Raised e, w')
    end.

Notation "x <- m ;; k" := (bind m (fun x => k))
  (at level 100, m at next level, right associativity).
Notation "m ;;; k" := (bind m (fun _ => k))
  (at level 100, right associativity).

(** [try: body except Exception as e: handler(e)]. *)
Definition try_except {A} (body : M A) (handler : Exn -> M A) : M A :=
  fun w =>
    match body w with
    | (Returned a, w') => (Returned a, w')
    | (Raised e, w') => handler e w'
    end.

(** [try: body except grpc.RpcError as e: handler(e)]: any other
    exception propagates. *)
Definition try_except_rpc {A} (body : M A) (handler : Exn -> M A) : M A :=
  fun w =>
    match body w with
    | (Returned a, w') => (Returned a, w')
    | (Raised (RpcError c), w') => handler (RpcError c) w'
    | (Raised e, w') => (Raised e, w')
    end.

(** [for x in xs: body], threading the loop-carried variables. *)
Fixpoint for_each {A S} (xs : list A) (body : S -> A -> M S) (s : S) : M S :=
  match xs with
  | [] => ret s
  | x :: xs' => s' <- body s x ;; for_each xs' body s'
  end.

(** [range(n)]. *)
Definition range (n : Z) : list Z := map Z.of_nat (seq 0 (Z.to_nat n)).

Definition print (m : Msg) : M unit :=
  fun w => (Returned tt,
            mkWorld (rng w) (csv_log w) (stdout w ++ [m]) (switch_conn w) (clock w)).

(** [datetime.now()], to the second. *)
Definition now : M Z := fun w => (Returned (clock w), w).

(** [time.sleep(secs)]. *)
Definition sleep (secs : Z) : M unit :=
  fun w => (Returned tt,
            mkWorld (rng w) (csv_log w) (stdout w) (switch_conn w) (clock w + secs)).

Definition randint (a b : Z) : M Z :=
  fun w =>
    let '(n, g) := random.randint a b (rng w) in
    (Returned n, mkWorld g (csv_log w) (stdout w) (switch_conn w) (clock w)).

(** [switch_conn.PacketOut(payload, [])]: the call is recorded, and raises
    when the connection fails it. *)
Definition PacketOut (payload : list byte) : M unit :=
  fun w =>
    let c := switch_conn w in
    let failure := fails c (length (packet_outs c)) payload in
    let ok := match failure with None => true | Some _ => false end in
    let c' := mkConn (packet_outs c ++ [(payload, ok)]) (fails c) (inbound c) in
    let w' := mkWorld (rng w) (csv_log w) (stdout w) c' (clock w) in
    match failure with
    | None => (Returned tt, w')
    | Some e => (Raised e, w')
    end.

(** [switch_conn.PacketIn()]. *)
Definition PacketIn : M (option (list byte)) :=
  fun w =>
    let c := switch_conn w in
    match inbound c with
    | [] => (Returned None, w)
    | r :: rest =>
        let w' := mkWorld (rng w) (csv_log w) (stdout w)
                          (mkConn (packet_outs c) (fails c) rest) (clock w) in
        match r with
        | InNone => (Returned None, w')
        | InPacket payload => (Returned (Some payload), w')
        | InRpcError code => (Raised (RpcError code), w')
        end
    end.

(** ** Imputation helper (controller.py, lines 82-104) *)

Definition impute_value (sensor_id : Z) : M Z :=
  if sensor_id =? 0 then randint 350 400        (* temperature, scaled by 10 *)
  else if sensor_id =? 1 then randint 90 100    (* oxygen saturation *)
  else if sensor_id =? 2 then randint 60 100    (* pulse rate *)
  else if sensor_id =? 3 then randint 100 140   (* systolic blood pressure *)
  else if sensor_id =? 4 then randint 12 20     (* respiratory rate *)
  else if sensor_id =? 5 then randint 0 3       (* avpu *)
  else if sensor_id =? 6 then randint 0 1       (* supplemental oxygen *)
  else if sensor_id =? 7 then ret 1             (* referral source *)
  else if sensor_id =? 8 then randint 30 80     (* age *)
  else if sensor_id =? 9 then randint 0 1       (* sex *)
  else ret 1.

(** ** Audit log (controller.py, lines 106-108)

    The file is opened in append mode and one row is written.  The file was
    created when the module was loaded (lines 32-33), and appending to it is
    taken to succeed. *)
Definition log_imputation (recv_time patient_id sensor_id old_val new_val : Z)
  : M unit :=
  fun w =>
    (Returned tt,
     mkWorld (rng w)
             (csv_log w ++ [mkRow recv_time patient_id sensor_id old_val new_val])
             (stdout w) (switch_conn w) (clock w)).

(** ** Heartbeat sender (controller.py, lines 113-124) *)

Definition heartbeat_pkt (pid : Z) : Ether.t :=
  Ether.mk 0x000400000000 0x080027bcfcb5 ETHERTYPE_SENSOR
           (SensorLayer (Sensor.mk pid 999 0 0) []).

(** The body of [for pid in range(NUM_PATIENTS)]. *)
Definition heartbeat_send (_ : unit) (pid : Z) : M unit :=
  let sensor_pkt := heartbeat_pkt pid in
  let payload := raw sensor_pkt in
  try_except (PacketOut payload)
             (fun e => print (ErrorHeartbeat pid e)).

(** One iteration of [while True]. *)
Definition heartbeat_tick : M unit :=
  for_each (range NUM_PATIENTS) heartbeat_send tt ;;;
  (t <- now ;; print (SentHeartbeats t)) ;;;
  sleep HEARTBEAT_NS.

(** [while True] never ends; [ticks] bounds the iterations observed. *)
Fixpoint heartbeat_loop (ticks : nat) : M unit :=
  match ticks with
  | O => ret tt
  | S n => heartbeat_tick ;;; heartbeat_loop n
  end.

(** ** Parse and process packet (controller.py, lines 129-165) *)

Section Controller.

(** [Ether(raw_payload)] is scapy's dissector, which is not part of the
    repository: it either raises or yields a frame. *)
Variable scapy_Ether : list byte -> outcome Ether.t.

Definition dissect_Ether (raw_payload : list byte) : M Ether.t :=
  fun w => (scapy_Ether raw_payload, w).

Definition getattr (planter : Planter.t) (sensor_id : Z) : M Z :=
  match Planter.getattr planter sensor_id with
  | Some v => ret v
  | None => raise AttributeError
  end.

(** The body of [for sensor_id in range(10)]; the loop carries the header
    being edited and the flag [imputed]. *)
Definition impute_slot (recv_time patient_id : Z)
    (st : Planter.t * bool) (sensor_id : Z) : M (Planter.t * bool) :=
  let '(planter, imputed) := st in
  if existsb (Z.eqb sensor_id) [5; 6; 7; 8; 9] then   (* skip non-numeric fields *)
    ret st
  else
    cur_val <- getattr planter sensor_id ;;
    if cur_val =? 0 then
      new_val <- impute_value sensor_id ;;
      log_imputation recv_time patient_id sensor_id cur_val new_val ;;;
      print (Imputing recv_time sensor_id patient_id cur_val new_val) ;;;
      ret (Planter.setattr planter sensor_id new_val, true)
    else
      ret st.

(** The loop [for sensor_id in range(10)], entered with [imputed = False]. *)
Definition impute_missing (recv_time patient_id : Z) (planter : Planter.t)
  : M (Planter.t * bool) :=
  for_each (range 10) (impute_slot recv_time patient_id) (planter, false).

(** The [try] block. *)
Definition parse_packet_body (raw_payload : list byte) : M unit :=
  pkt <- dissect_Ether raw_payload ;;
  match get_Planter pkt with
  | None => print NoPlanterHeader
  | Some planter =>
      recv_time <- now ;;
      let patient_id := Planter.patient_id planter in
      st <- impute_missing recv_time patient_id planter ;;
      let '(planter', imputed) := st in
      print (if imputed
             then ModifiedPlanter recv_time patient_id planter'
             else CompletePlanter recv_time patient_id planter') ;;;
      let payload := raw (set_Planter pkt planter') in
      print (SendingPacketOut recv_time CPU_PORT) ;;;
      PacketOut payload
  end.

Definition parse_packet (raw_payload : list byte) : M unit :=
  try_except (parse_packet_body raw_payload)
             (fun e => print (ErrorParsing e)).

(** ** Packet-in handler and main loop (controller.py, lines 170-177, 205) *)

Definition handle_packet_in : M unit :=
  try_except_rpc
    (pktin <- PacketIn ;;
     match pktin with
     | Some payload =>
         print (ReceivedPacketIn (length payload)) ;;;
         parse_packet payload
     | None => ret tt
     end)
    (fun e => print (GrpcError e)).

(** [while True: handle_packet_in(...)], for a bounded number of rounds. *)
Fixpoint main_loop (rounds : nat) : M unit :=
  match rounds with
  | O => ret tt
  | S n => handle_packet_in ;;; main_loop n
  end.

End Controller.

(** One dissector, for running the model on concrete frames: fewer than 14
    bytes cannot be unpacked as an Ethernet header; a payload too short for
    the bound layer is kept as [Raw]. *)
Definition Ether_dissect (bs : list byte) : outcome Ether.t :=
  if (length bs <? 14)%nat then Raised StructError
  else
    let dst := Planter.slice bs 0 6 in
    let src := Planter.slice bs 6 6 in
    let type := Planter.slice bs 12 2 in
    let body := skipn 14 bs in
    let layer :=
      if (type =? ETHERTYPE_PLANTER) && (Planter.size <=? length body)%nat then
        PlanterLayer (Planter.dissect body) (skipn Planter.size body)
      else if (type =? ETHERTYPE_SENSOR) && (Sensor.size <=? length body)%nat then
        SensorLayer (Sensor.dissect body) (skipn Sensor.size body)
      else Raw body in
    Returned (Ether.mk dst src type layer).

(** A quiet world: nothing logged, printed or sent yet, no send fails. *)
Definition world0 (draws : nat -> Z) : World :=
  mkWorld (random.mk draws 0) [] [] (mkConn [] (fun _ _ => None) []) 0.


(** ** Observations on a processed feature vector *)

(** The value carried in slot [sensor_id] (0 for a name the header lacks). *)
Definition feat (p : Planter.t) (sensor_id : Z) : Z :=
  match Planter.getattr p sensor_id with
  | Some v => v
  | None => 0
  end.

(** The slots whose value differs between the vector received and the
    vector sent back. *)
Definition changed_slots (p p' : Planter.t) : list Z :=
  filter (fun i => feat p i ≠ feat p' i) (range 10).

(** The slots the loop looks at: not skipped, and carrying 0. *)
Definition missing_slots (p : Planter.t) : list Z :=
  filter (fun i => i < 5 ∧ feat p i = 0) (range 10).

(** The range [impute_value] draws from for the five numeric sensors. *)
Definition in_sensor_range (sensor_id v : Z) : Prop :=
  (sensor_id = 0 ∧ 350 <= v <= 400) ∨
  (sensor_id = 1 ∧ 90 <= v <= 100) ∨
  (sensor_id = 2 ∧ 60 <= v <= 100) ∨
  (sensor_id = 3 ∧ 100 <= v <= 140) ∨
  (sensor_id = 4 ∧ 12 <= v <= 20).

(** The [PacketOut] calls made between two worlds. *)
Definition new_packet_outs (w w' : World) : list (list byte * bool) :=
  skipn (length (packet_outs (switch_conn w))) (packet_outs (switch_conn w')).

(** Two worlds that differ at most in what has been printed. *)
Definition same_but_stdout (w1 w2 : World) : Prop :=
  rng w1 = rng w2 ∧ csv_log w1 = csv_log w2 ∧
  switch_conn w1 = switch_conn w2 ∧ clock w1 = clock w2.

(** ** Window Store and Submission Gate

    The per-patient window assembly runs in the switch pipeline, whose
    program is not among the Python sources; the definitions of this module
    follow sections 3, 4.1 and 4.4 of the design document. *)

Module Window.

(** Modelled from the spec: the number of sensor slots of a window (section
    3, "10 in observed usage"); the switch program that fixes it is missing. *)
Definition N : Z := 10.

(** Modelled from the spec: the staleness threshold of section 4.4 ("60s in
    observed deployment"); the switch program that fixes it is missing. *)
Definition WINDOW_TIMEOUT : Z := 60.

(** Modelled from the spec: the Patient Window of section 3, whose
    declaration in the switch program is missing.  [serial] is not in the
    document: it numbers the windows in the order they are opened, so that
    "the same window" can be said of two submissions. *)
Record t : Type := mk {
  serial : nat;
  slots : gmap Z Z;
  window_timestamp : Z;
  first_seen_at : Z;
  last_update_at : Z;
  finalized : bool;
  imputed_slots : gset Z
}.

(** Modelled from the spec: the window map of section 5 ("patient_id ->
    Patient Window"), missing with the switch program; [opened] counts the
    windows opened so far. *)
Record Store : Type := mkStore {
  windows : gmap Z t;
  opened : nat
}.

(** Modelled from the spec: the state in which no patient has a window yet
    (section 3, "created implicitly on first sensor reading"); the store's
    code is missing. *)
Definition empty : Store := mkStore ∅ 0.

(** Modelled from the spec: "a window is created implicitly on first sensor
    reading" (section 3); the creating code is missing. *)
Definition open_window (patient_id sensor_id value timestamp now : Z)
    (st : Store) : Store :=
  mkStore (<[patient_id :=
             mk (opened st) {[sensor_id := value]} timestamp now now false ∅]>
           (windows st))
          (S (opened st)).

(** Modelled from the spec: [update_slot] of section 4.1, missing with the
    switch program.  A sensor index outside 0..N-1 is an ignored update
    (section 7); a finalized window is replaced by a fresh one; a slot that
    already holds an observed value keeps it. *)
Definition update_slot (patient_id sensor_id value timestamp now : Z)
    (st : Store) : Store :=
  if bool_decide (0 <= sensor_id < N) then
    match windows st !! patient_id with
    | None => open_window patient_id sensor_id value timestamp now st
    | Some w =>
        if finalized w then
          open_window patient_id sensor_id value timestamp now st
        else
          match slots w !! sensor_id with
          | Some _ => st
          | None =>
              mkStore (<[patient_id :=
                         mk (serial w) (<[sensor_id := value]> (slots w))
                            (window_timestamp w) (first_seen_at w) now
                            false (imputed_slots w)]> (windows st))
                      (opened st)
          end
    end
  else st.

(** Modelled from the spec: [is_complete] of section 4.1, "true iff all N
    slots are observed"; missing with the switch program. *)
Definition is_complete (patient_id : Z) (st : Store) : bool :=
  match windows st !! patient_id with
  | Some w => forallb (fun i => bool_decide (is_Some (slots w !! i))) (range N)
  | None => false
  end.

(** Modelled from the spec: [snapshot_and_clear] of section 4.1, "atomically
    returns the current slot mapping and resets the window"; missing with
    the switch program. *)
Definition snapshot_and_clear (patient_id : Z) (st : Store)
  : option t * Store :=
  (windows st !! patient_id,
   mkStore (delete patient_id (windows st)) (opened st)).

(** Modelled from the spec: the Feature Vector Submission of section 6 (N
    values in fixed order plus patient and timestamp); an unobserved slot
    travels as 0, for the Imputation Engine to fill.  The submitting code is
    missing. *)
Record Submission : Type := mkSub {
  sub_patient_id : Z;
  sub_timestamp : Z;
  sub_serial : nat;
  sub_vector : list Z;
  sub_forced : bool
}.

(** Modelled from the spec: the "fixed-order vector of N sensor values" of
    section 6, read off a window; the submitting code is missing. *)
Definition vector_of (w : t) : list Z :=
  map (fun i => default 0 (slots w !! i)) (range N).

(** Modelled from the spec: the [*_PENDING_SUBMIT -> FINALIZED -> EMPTY]
    transition of section 4.4, through [snapshot_and_clear]; the gate's code
    is missing. *)
Definition finalize (forced : bool) (patient_id : Z) (st : Store)
  : Store * list Submission :=
  match snapshot_and_clear patient_id st with
  | (Some w, st') =>
      (st', [mkSub patient_id (window_timestamp w) (serial w)
                   (vector_of w) forced])
  | (None, st') => (st', [])
  end.

(** Modelled from the spec: "window age >= timeout threshold" of section
    4.4, the age being counted from [first_seen_at]; the gate's code is
    missing. *)
Definition timed_out (now patient_id : Z) (st : Store) : bool :=
  match windows st !! patient_id with
  | Some w => bool_decide (WINDOW_TIMEOUT <= now - first_seen_at w)
  | None => false
  end.

(** Modelled from the spec: an ingested event of section 5, a sensor
    reading together with its wall-clock receipt time; a heartbeat is the
    reading with sensor 999 and value 0.  The ingestion code is missing. *)
Record Event : Type := mkEvent {
  received_at : Z;
  reading : Sensor.t
}.

(** Modelled from the spec: the Submission Gate of section 4.4, evaluated on
    every ingested event, heartbeats included (section 4.3); the gate's code
    is missing.  An empty window is never forced. *)
Definition ingest (ev : Event) (st : Store) : Store * list Submission :=
  let r := reading ev in
  let pid := Sensor.patient_id r in
  let st1 := update_slot pid (Sensor.sensor_id r) (Sensor.feature_value r)
                         (Sensor.timestamp r) (received_at ev) st in
  if is_complete pid st1 then finalize false pid st1
  else if timed_out (received_at ev) pid st1 then finalize true pid st1
  else (st1, []).

(** Modelled from the spec: section 5 asks that the events of a patient be
    handled one at a time; a run ingests the events in the order that
    serialisation settled on.  The ingestion code is missing. *)
Fixpoint run (evs : list Event) (st : Store) : Store * list Submission :=
  match evs with
  | [] => (st, [])
  | ev :: evs' =>
      let '(st1, out1) := ingest ev st in
      let '(st2, out2) := run evs' st1 in
      (st2, out1 ++ out2)
  end.

(** Modelled from the spec: a sequence of [update_slot] calls (section 8,
    property 1) with no finalization in between; the store's code is
    missing. *)
Definition updates (us : list Event) (st : Store) : Store :=
  fold_left (fun s ev =>
               let r := reading ev in
               update_slot (Sensor.patient_id r) (Sensor.sensor_id r)
                           (Sensor.feature_value r) (Sensor.timestamp r)
                           (received_at ev) s)
            us st.

(** Modelled from the spec: the observed value of a slot in a patient's
    current window (section 3, [slots]); the store's code is missing. *)
Definition slot (patient_id sensor_id : Z) (st : Store) : option Z :=
  w ← windows st !! patient_id; slots w !! sensor_id.

End Window.

(** The fields of the header other than the ten features. *)
Definition same_header (p p' : Planter.t) : Prop :=
  Planter.P p' = Planter.P p /\ Planter.Four p' = Planter.Four p /\
  Planter.version p' = Planter.version p /\ Planter.type p' = Planter.type p /\
  Planter.patient_id p' = Planter.patient_id p /\
  Planter.timestamp p' = Planter.timestamp p /\
  Planter.result p' = Planter.result p.


(** The rows appended to the audit log between two worlds. *)
Definition audit_rows (w w' : World) : list CsvRow :=
  skipn (length (csv_log w)) (csv_log w').

(** Some row of [rows] records an imputation of slot [sensor_id]. *)
Definition logged_slot (rows : list CsvRow) (sensor_id : Z) : Prop :=
  exists row, row ∈ rows /\ row_sensor_id row = sensor_id.

(** ** Concrete feature vectors *)

(** The frame the switch hands to the controller for a feature vector. *)
Definition frame_of (p : Planter.t) : list byte :=
  raw (Ether.mk 0x080027bcfcb5 0x000400000000 ETHERTYPE_PLANTER
                (PlanterLayer p [])).

(** Patient 1000 with sensors 0-5 observed and sensors 6-9 absent. *)
Definition patient_1000 : Planter.t :=
  Planter.mk 0x50 0x34 1 1 1000 0 380 94 110 90 22 1 0 0 0 0 0.

(** A complete vector whose AVPU reading is 0 (alert) and whose flags for
    supplemental oxygen and sex are 0. *)
Definition patient_alert : Planter.t :=
  Planter.mk 0x50 0x34 1 1 7 0 380 94 110 90 22 0 0 2 65 0 0.

(** A vector with temperature and pulse missing. *)
Definition patient_partial : Planter.t :=
  Planter.mk 0x50 0x34 1 1 42 0 0 94 0 90 22 1 1 2 65 1 0.

(** ** Decoding failures *)

(** The payload does not decode to a feature vector: the dissector raises
    (malformed or too short), or the frame has no Planter header. *)
Definition undecodable (scapy_Ether : list byte -> outcome Ether.t)
    (raw_payload : list byte) : Prop :=
  match scapy_Ether raw_payload with
  | Raised _ => True
  | Returned pkt => get_Planter pkt = None
  end.

(** The world with other PacketIns pending. *)
Definition set_inbound (w : World) (pending : list PacketInResult) : World :=
  mkWorld (rng w) (csv_log w) (stdout w)
          (mkConn (packet_outs (switch_conn w)) (fails (switch_conn w)) pending)
          (clock w).

(** A statement that neither reads standard output nor lets it decide
    anything: run from two worlds that differ in what was printed only, it
    ends the same way in two worlds that differ in what was printed only. *)
Definition stdout_blind {A} (m : M A) : Prop :=
  forall w1 w2, same_but_stdout w1 w2 ->
    fst (m w1) = fst (m w2) /\ same_but_stdout (snd (m w1)) (snd (m w2)).

(** ** Observations on the heartbeat sender *)

(** The frames of one tick, in the order they are sent. *)
Definition heartbeat_frames : list (list byte) :=
  map (fun pid => raw (heartbeat_pkt pid)) (range NUM_PATIENTS).

(** The [PacketOut] calls of a run of heartbeats that starts when [n] calls
    have been made on the connection: every patient of [pids] gets its call,
    whether or not earlier ones failed. *)
Fixpoint heartbeat_calls (fails : nat -> list byte -> option Exn) (n : nat)
    (pids : list Z) : list (list byte * bool) :=
  match pids with
  | [] => []
  | pid :: rest =>
      (raw (heartbeat_pkt pid),
       match fails n (raw (heartbeat_pkt pid)) with None => true | Some _ => false end)
      :: heartbeat_calls fails (S n) rest
  end.

(** The messages printed for the calls that failed. *)
Fixpoint heartbeat_errors (fails : nat -> list byte -> option Exn) (n : nat)
    (pids : list Z) : list Msg :=
  match pids with
  | [] => []
  | pid :: rest =>
      match fails n (raw (heartbeat_pkt pid)) with
      | None => heartbeat_errors fails (S n) rest
      | Some e => ErrorHeartbeat pid e :: heartbeat_errors fails (S n) rest
      end
  end.


(** What was printed between two worlds. *)
Definition printed (w w' : World) : list Msg :=
  skipn (length (stdout w)) (stdout w').


(** A connection on which the calls numbered in [bad] fail. *)
Definition failing_on (bad : list nat) : nat -> list byte -> option Exn :=
  fun n _ => if existsb (Nat.eqb n) bad then Some (RpcError 14) else None.

(** ** Observations on the Window Store *)

Module WindowFacts.
Import Window.

(** Modelled from the spec: "a slot filled with an observed value" of
    section 3, for a window that has not been finalized; the store's code is
    missing. *)
Definition holds (patient_id sensor_id v : Z) (st : Store) : Prop :=
  exists w, windows st !! patient_id = Some w /\ finalized w = false /\
            slots w !! sensor_id = Some v.

(** Modelled from the spec: the state [EMPTY] or [PARTIAL] with the slot
    still free (section 4.4); the gate's code is missing. *)
Definition vacant (patient_id sensor_id : Z) (st : Store) : Prop :=
  match windows st !! patient_id with
  | None => True
  | Some w => finalized w = false /\ slots w !! sensor_id = None
  end.

(** Modelled from the spec: consistency of the window numbering added to the
    Patient Window of section 3: the serial numbers in use are below the
    counter, and no two patients share one. *)
Definition well_numbered (st : Store) : Prop :=
  (forall pid w, windows st !! pid = Some w -> (serial w < opened st)%nat) /\
  (forall pid1 pid2 w1 w2,
     windows st !! pid1 = Some w1 -> windows st !! pid2 = Some w2 ->
     serial w1 = serial w2 -> pid1 = pid2).

(** Modelled from the spec: the serial number belongs to a window (section
    3) that is open now or will be opened later. *)
Definition live (st : Store) (s : nat) : Prop :=
  (exists pid w, windows st !! pid = Some w /\ serial w = s) \/
  (opened st <= s)%nat.

(** Modelled from the spec: the heartbeat reading of section 4.3 as the
    gate receives it (sensor 999, value 0); the ingestion code is missing. *)
Definition heartbeat (now patient_id : Z) : Event :=
  mkEvent now (Sensor.mk patient_id 999 0 0).

End WindowFacts.

(** ** Scenarios for the Submission Gate *)

Module Scenario.
Import Window WindowFacts.

(** Modelled from the spec: readings of sensors [sids] for one patient
    (section 6, Sensor Reading), all received at [now]. *)
Definition readings (now patient_id : Z) (sids : list Z) : list Event :=
  map (fun sid => mkEvent now (Sensor.mk patient_id sid 5000 (100 + sid))) sids.

(** Modelled from the spec: scenario 7 of section 8.  Patient 1000 sends
    sensors 0-5 and nothing more; the heartbeat ticks every 15 seconds. *)
Definition timeout_run : list Event :=
  readings 0 1000 [0; 1; 2; 3; 4; 5] ++
  map (fun t => heartbeat t 1000) [15; 30; 45; 60; 75; 90].

(** Modelled from the spec: property 2 of section 8.  Patient 2000 has nine
    sensors in; the tenth arrives between heartbeat ticks, and ticks keep
    coming. *)
Definition completing_run : list Event :=
  readings 0 2000 [0; 1; 2; 3; 4; 5; 6; 7; 8] ++
  [heartbeat 15 2000] ++ readings 16 2000 [9] ++
  map (fun t => heartbeat t 2000) [30; 45; 60; 75; 90].

(** Modelled from the spec: property 1 of section 8.  The same sensor is
    written three times in one window. *)
Definition duplicate_run : list Event :=
  [mkEvent 0 (Sensor.mk 7 2 5000 61); mkEvent 1 (Sensor.mk 7 2 5001 99);
   mkEvent 2 (Sensor.mk 7 3 5002 120); mkEvent 3 (Sensor.mk 7 2 5003 75)].

End Scenario.

(** ** Well-formed headers

    The values each field of [fields_desc] can carry on the wire. *)

Definition planter_wf (p : Planter.t) : Prop :=
  0 <= Planter.P p < 2^8 /\ 0 <= Planter.Four p < 2^8 /\
  0 <= Planter.version p < 2^8 /\ 0 <= Planter.type p < 2^8 /\
  0 <= Planter.patient_id p < 2^32 /\ 0 <= Planter.timestamp p < 2^48 /\
  0 <= Planter.feature0 p < 2^16 /\ 0 <= Planter.feature1 p < 2^16 /\
  0 <= Planter.feature2 p < 2^16 /\ 0 <= Planter.feature3 p < 2^16 /\
  0 <= Planter.feature4 p < 2^16 /\ 0 <= Planter.feature5 p < 2^16 /\
  0 <= Planter.feature6 p < 2^16 /\ 0 <= Planter.feature7 p < 2^16 /\
  0 <= Planter.feature8 p < 2^16 /\ 0 <= Planter.feature9 p < 2^16 /\
  0 <= Planter.result p < 2^32.

Definition sensor_wf (s : Sensor.t) : Prop :=
  0 <= Sensor.patient_id s < 2^32 /\ 0 <= Sensor.sensor_id s < 2^32 /\
  0 <= Sensor.timestamp s < 2^48 /\ 0 <= Sensor.feature_value s < 2^16.

(** A 48-bit MAC address. *)
Definition mac_wf (a : Z) : Prop := 0 <= a < 2^48.

(** A frame whose fields fit their widths and whose EtherType is the one
    bound to its layer ([bind_layers], lines 62 and 77); undissected bytes
    travel under any other EtherType. *)
Definition frame_wf (pkt : Ether.t) : Prop :=
  mac_wf (Ether.dst pkt) /\ mac_wf (Ether.src pkt) /\
  match Ether.payload pkt with
  | PlanterLayer p _ => Ether.type pkt = ETHERTYPE_PLANTER /\ planter_wf p
  | SensorLayer s _ => Ether.type pkt = ETHERTYPE_SENSOR /\ sensor_wf s
  | Raw _ =>
      0 <= Ether.type pkt < 2^16 /\
      Ether.type pkt <> ETHERTYPE_PLANTER /\ Ether.type pkt <> ETHERTYPE_SENSOR
  end.

(** ** Observations on the packet-in handler *)

(** The payload dissects to a frame with a Planter header. *)
Definition has_planter (scapy_Ether : list byte -> outcome Ether.t)
    (payload : list byte) : bool :=
  match scapy_Ether payload with
  | Returned pkt =>
      match get_Planter pkt with Some _ => true | None => false end
  | Raised _ => false
  end.

(** The pending PacketIns that carry a feature vector. *)
Definition planter_payloads (scapy_Ether : list byte -> outcome Ether.t)
    (pending : list PacketInResult) : list (list byte) :=
  flat_map (fun r => match r with
                     | InPacket payload =>
                         if has_planter scapy_Ether payload then [payload] else []
                     | _ => []
                     end) pending.

(** The messages of the imputation loop for the slots [slots] of the vector
    sent back. *)
Definition imputing_msgs (recv_time patient_id : Z) (p' : Planter.t)
    (slots : list Z) : list Msg :=
  map (fun i => Imputing recv_time i patient_id 0 (feat p' i)) slots.

(** ** The imputation loop without its side effects

    What the loop of [parse_packet] does to the vector and to the
    generator, leaving out the log and the messages: the slots of [slots]
    are visited in order, and a numeric slot that carries 0 takes the next
    value [impute_value] draws. *)
Fixpoint fill_slots (slots : list Z) (p : Planter.t) (g : random.state)
  : Planter.t * random.state :=
  match slots with
  | [] => (p, g)
  | x :: rest =>
      if existsb (Z.eqb x) [5; 6; 7; 8; 9] then fill_slots rest p g
      else if feat p x =? 0 then
        match impute_value x (mkWorld g [] [] (mkConn [] (fun _ _ => None) []) 0) with
        | (Returned v, w) => fill_slots rest (Planter.setattr p x v) (rng w)
        | (Raised _, _) => (p, g)
        end
      else fill_slots rest p g
  end.

(** * Proofs

    ** Reading and writing the feature slots *)

Lemma getattr_in_range p i : 0 <= i < 10 -> Planter.getattr p i = Some (feat p i).
Proof.
  intros H. unfold feat.
  assert (i = 0 \/ i = 1 \/ i = 2 \/ i = 3 \/ i = 4 \/ i = 5 \/ i = 6 \/ i = 7 \/ i = 8 \/ i = 9) as Hc by lia.
  repeat (destruct Hc as [-> | Hc]; [reflexivity|]). subst. reflexivity.
Qed.

Lemma feat_out_of_range p i : ~ (0 <= i < 10) -> feat p i = 0.
Proof.
  intros H. unfold feat, Planter.getattr.
  destruct i as [|q|q]; try lia; try reflexivity.
  do 5 (try (destruct q as [q|q|]; try reflexivity; try lia)).
Qed.

Lemma feat_setattr_eq p x v : 0 <= x < 10 -> feat (Planter.setattr p x v) x = v.
Proof.
  intros H. destruct p.
  assert (x = 0 \/ x = 1 \/ x = 2 \/ x = 3 \/ x = 4 \/ x = 5 \/ x = 6 \/ x = 7 \/ x = 8 \/ x = 9) as Hc by lia.
  repeat (destruct Hc as [-> | Hc]; [reflexivity|]). subst. reflexivity.
Qed.

Lemma feat_setattr_ne p x v i : i <> x -> feat (Planter.setattr p x v) i = feat p i.
Proof.
  intros Hne.
  destruct (decide (0 <= i < 10)) as [Hi|Hi].
  - destruct (decide (0 <= x < 10)) as [Hx|Hx].
    + destruct p.
      assert (x = 0 \/ x = 1 \/ x = 2 \/ x = 3 \/ x = 4 \/ x = 5 \/ x = 6 \/ x = 7 \/ x = 8 \/ x = 9) as Hc by lia.
      assert (i = 0 \/ i = 1 \/ i = 2 \/ i = 3 \/ i = 4 \/ i = 5 \/ i = 6 \/ i = 7 \/ i = 8 \/ i = 9) as Hd by lia.
      clear Hi Hx.
      repeat (destruct Hc as [-> | Hc]);
      repeat (destruct Hd as [-> | Hd]); subst; try reflexivity; try congruence.
    + replace (Planter.setattr p x v) with p; [done|].
      destruct p. unfold Planter.setattr.
      destruct x as [|q|q]; try lia; try reflexivity.
      do 5 (try (destruct q as [q|q|]; try reflexivity; try lia)).
  - rewrite !feat_out_of_range; auto.
Qed.

(** ** The random generator and [impute_value] *)

Lemma random_randint_range a b g :
  a <= b -> a <= fst (random.randint a b g) <= b.
Proof.
  intros Hab. unfold random.randint. simpl.
  pose proof (Z.mod_pos_bound (random.draws g (random.pos g)) (b - a + 1)).
  lia.
Qed.

Lemma randint_run a b w :
  randint a b w =
    (Returned (fst (random.randint a b (rng w))),
     mkWorld (snd (random.randint a b (rng w)))
             (csv_log w) (stdout w) (switch_conn w) (clock w)).
Proof. reflexivity. Qed.

(** What a call of [impute_value] leaves behind: the value, and a world
    that differs from the one before in the generator only. *)
Lemma impute_value_run sensor_id w :
  exists v g,
    impute_value sensor_id w =
      (Returned v, mkWorld g (csv_log w) (stdout w) (switch_conn w) (clock w)).
Proof.
  unfold impute_value.
  repeat (match goal with
          | |- context [if ?c then _ else _] => destruct c
          end);
    try (rewrite randint_run; eauto);
    destruct w; unfold ret; simpl; eauto.
Qed.

Lemma impute_value_table :
  impute_value 0 = randint 350 400 /\ impute_value 1 = randint 90 100 /\
  impute_value 2 = randint 60 100 /\ impute_value 3 = randint 100 140 /\
  impute_value 4 = randint 12 20 /\ impute_value 5 = randint 0 3 /\
  impute_value 6 = randint 0 1 /\ impute_value 7 = ret 1 /\
  impute_value 8 = randint 30 80 /\ impute_value 9 = randint 0 1.
Proof. repeat split; reflexivity. Qed.

Lemma impute_value_numeric sensor_id w v w' :
  0 <= sensor_id < 5 ->
  impute_value sensor_id w = (Returned v, w') ->
  in_sensor_range sensor_id v.
Proof.
  intros Hs. unfold in_sensor_range.
  destruct impute_value_table as (E0 & E1 & E2 & E3 & E4 & _).
  assert (sensor_id = 0 \/ sensor_id = 1 \/ sensor_id = 2 \/
          sensor_id = 3 \/ sensor_id = 4) as Hc by lia.
  destruct Hc as [-> | [-> | [-> | [-> | ->]]]];
    rewrite ?E0, ?E1, ?E2, ?E3, ?E4, randint_run; intros [= <- _];
    match goal with
    | |- context [?d `mod` ?m] => pose proof (Z.mod_pos_bound d m ltac:(lia))
    end; lia.
Qed.

(** ** One iteration of the imputation loop *)

Lemma impute_slot_skip t pid p b x w :
  0 <= x < 10 -> ~ (x < 5 /\ feat p x = 0) ->
  impute_slot t pid (p, b) x w = (Returned (p, b), w).
Proof.
  intros Hx Hn. unfold impute_slot.
  destruct (existsb (Z.eqb x) [5; 6; 7; 8; 9]) eqn:Hskip; [reflexivity|].
  assert (x < 5) as Hlt.
  { simpl in Hskip. repeat (apply orb_false_elim in Hskip as [?%Z.eqb_neq Hskip]).
    lia. }
  unfold bind, getattr. rewrite getattr_in_range by lia. unfold ret at 1.
  destruct (Z.eqb_spec (feat p x) 0); [tauto | reflexivity].
Qed.

Lemma impute_slot_fill t pid p b x w :
  0 <= x < 5 -> feat p x = 0 ->
  exists v g,
    in_sensor_range x v /\
    impute_value x w =
      (Returned v, mkWorld g (csv_log w) (stdout w) (switch_conn w) (clock w)) /\
    impute_slot t pid (p, b) x w =
      (Returned (Planter.setattr p x v, true),
       mkWorld g (csv_log w ++ [mkRow t pid x 0 v])
               (stdout w ++ [Imputing t x pid 0 v])
               (switch_conn w) (clock w)).
Proof.
  intros Hx H0. unfold impute_slot.
  assert (existsb (Z.eqb x) [5; 6; 7; 8; 9] = false) as ->.
  { simpl. repeat (apply orb_false_intro; [apply Z.eqb_neq; lia|]). reflexivity. }
  destruct (impute_value_run x w) as (v & g & Hrun).
  exists v, g. split; [|split].
  - eapply impute_value_numeric; [lia | exact Hrun].
  - exact Hrun.
  - unfold bind at 1, getattr. rewrite getattr_in_range by lia. unfold ret at 1.
    rewrite H0. simpl (0 =? 0). cbv iota.
    unfold bind at 1. rewrite Hrun. reflexivity.
Qed.

(** ** The whole loop *)

Lemma filter_ext_elem {A} (P1 P2 : A -> Prop)
    `{!forall x, Decision (P1 x)} `{!forall x, Decision (P2 x)} (l : list A) :
  (forall x, x ∈ l -> P1 x <-> P2 x) -> filter P1 l = filter P2 l.
Proof.
  induction l as [|a l IH]; intros Hext; [reflexivity|].
  rewrite !filter_cons.
  assert (P1 a <-> P2 a) as Ha by (apply Hext; left).
  rewrite IH by (intros x Hx; apply Hext; right; exact Hx).
  destruct (decide (P1 a)), (decide (P2 a)); tauto.
Qed.

Lemma same_header_refl p : same_header p p.
Proof. repeat split. Qed.

Lemma same_header_trans p q r : same_header p q -> same_header q r -> same_header p r.
Proof. unfold same_header. intuition congruence. Qed.

Lemma setattr_same_header p x v : same_header p (Planter.setattr p x v).
Proof.
  destruct p. unfold Planter.setattr.
  destruct x as [|q|q]; try (repeat split; fail).
  do 5 (try (destruct q as [q|q|]; try (repeat split; fail))).
Qed.

Lemma impute_loop t pid xs :
  Forall (fun x => 0 <= x < 10) xs -> NoDup xs ->
  forall p b w, exists p' b' w',
    for_each xs (impute_slot t pid) (p, b) w = (Returned (p', b'), w') /\
    switch_conn w' = switch_conn w /\ clock w' = clock w /\
    same_header p p' /\
    (forall i, i ∉ xs -> feat p' i = feat p i) /\
    (forall i, ~ (i < 5 /\ feat p i = 0) -> feat p' i = feat p i) /\
    (forall i, i ∈ xs -> i < 5 -> feat p i = 0 -> in_sensor_range i (feat p' i)) /\
    csv_log w' =
      csv_log w ++ map (fun i => mkRow t pid i 0 (feat p' i))
                       (filter (fun i => i < 5 /\ feat p i = 0) xs) /\
    b' = b || bool_decide (filter (fun i => i < 5 /\ feat p i = 0) xs <> []).
Proof.
  induction xs as [|x xs IH]; intros Hr Hnd p b w.
  - exists p, b, w. simpl. rewrite app_nil_r, orb_false_r.
    repeat split; auto. intros i Hi. inversion Hi.
  - apply Forall_cons in Hr as [Hx Hr]. apply NoDup_cons in Hnd as [Hnx Hnd].
    cbn [for_each]. unfold bind at 1.
    destruct (decide (x < 5 /\ feat p x = 0)) as [[Hlt H0]|Hno].
    + destruct (impute_slot_fill t pid p b x w ltac:(lia) H0)
        as (v & g & Hv & _ & ->).
      set (p1 := Planter.setattr p x v). set (w1 := mkWorld _ _ _ _ _).
      destruct (IH Hr Hnd p1 true w1)
        as (p' & b' & w' & Hrun & Hc & Hk & Hh & Hout & Hkeep & Hin & Hlog & Hb).
      assert (forall i, i <> x -> feat p1 i = feat p i) as Hp1
          by (intros; apply feat_setattr_ne; assumption).
      assert (feat p' x = v) as Hpx.
      { rewrite Hout by assumption. apply feat_setattr_eq. lia. }
      assert (filter (fun i => i < 5 /\ feat p1 i = 0) xs =
              filter (fun i => i < 5 /\ feat p i = 0) xs) as Hf.
      { apply filter_ext_elem. intros i Hi. rewrite Hp1; [tauto|].
        intros ->. contradiction. }
      exists p', b', w'. rewrite Hrun.
      split; [reflexivity|]. split; [exact Hc|]. split; [exact Hk|].
      split; [eapply same_header_trans; [apply setattr_same_header | exact Hh]|].
      split.
      { intros i Hi. apply not_elem_of_cons in Hi as [Hne Hi].
        rewrite Hout, Hp1; auto. }
      split.
      { intros i Hi. destruct (decide (i = x)) as [->|Hne]; [tauto|].
        rewrite Hkeep, Hp1; auto. rewrite Hp1; auto. }
      split.
      { intros i Hi Hi5 Hi0. apply elem_of_cons in Hi as [->|Hi].
        - rewrite Hpx. exact Hv.
        - apply Hin; auto. rewrite Hp1; auto. intros ->. contradiction. }
      split.
      { rewrite Hlog, Hf. subst w1. cbn [csv_log].
        rewrite filter_cons_True by auto. cbn [map].
        rewrite Hpx, <- app_assoc. reflexivity. }
      { rewrite Hb, filter_cons_True by auto.
        rewrite (bool_decide_eq_true_2 (_ :: _ <> [])) by discriminate.
        rewrite orb_true_r. reflexivity. }
    + rewrite (impute_slot_skip t pid p b x w Hx Hno).
      destruct (IH Hr Hnd p b w)
        as (p' & b' & w' & Hrun & Hc & Hk & Hh & Hout & Hkeep & Hin & Hlog & Hb).
      exists p', b', w'. rewrite Hrun.
      rewrite filter_cons_False by exact Hno.
      repeat split; auto.
      * apply Hh. * apply Hh. * apply Hh. * apply Hh. * apply Hh. * apply Hh.
      * apply Hh.
      * intros i Hi. apply not_elem_of_cons in Hi as [_ Hi]. auto.
      * intros i Hi Hi5 Hi0. apply elem_of_cons in Hi as [->|Hi]; [tauto|auto].
Qed.

Lemma range_10 : range 10 = [0; 1; 2; 3; 4; 5; 6; 7; 8; 9].
Proof. reflexivity. Qed.

Lemma range_10_elem i : i ∈ range 10 <-> 0 <= i < 10.
Proof.
  rewrite range_10. repeat rewrite elem_of_cons. rewrite elem_of_nil. lia.
Qed.

Lemma range_10_NoDup : NoDup (range 10).
Proof.
  rewrite range_10.
  repeat (apply NoDup_cons; split;
          [repeat rewrite elem_of_cons; rewrite elem_of_nil; lia|]).
  apply NoDup_nil. exact I.
Qed.

Lemma missing_slots_elem p i : i ∈ missing_slots p <-> 0 <= i < 5 /\ feat p i = 0.
Proof.
  unfold missing_slots. rewrite list_elem_of_filter, range_10_elem. lia.
Qed.

(** The loop of [parse_packet], as a whole: what is sent back, what is
    logged, and what stays as it was. *)
Lemma impute_missing_run t pid p w :
  exists p' imputed w',
    impute_missing t pid p w = (Returned (p', imputed), w') /\
    switch_conn w' = switch_conn w /\ clock w' = clock w /\
    same_header p p' /\
    (forall i, ~ (i < 5 /\ feat p i = 0) -> feat p' i = feat p i) /\
    (forall i, 0 <= i < 5 -> feat p i = 0 -> in_sensor_range i (feat p' i)) /\
    csv_log w' =
      csv_log w ++ map (fun i => mkRow t pid i 0 (feat p' i)) (missing_slots p) /\
    imputed = bool_decide (missing_slots p <> []).
Proof.
  unfold impute_missing.
  destruct (impute_loop t pid (range 10)) with (p := p) (b := false) (w := w)
    as (p' & b' & w' & Hrun & Hc & Hk & Hh & Hout & Hkeep & Hin & Hlog & Hb).
  - apply Forall_forall. intros x Hx. apply range_10_elem, Hx.
  - apply range_10_NoDup.
  - exists p', b', w'. repeat split; try apply Hh; auto.
    intros i Hi H0. apply Hin; [apply range_10_elem; lia | lia | exact H0].
Qed.

(** ** [parse_packet] on a frame that carries a Planter header *)

Lemma PacketOut_run payload w :
  exists ok r,
    PacketOut payload w =
      (r, mkWorld (rng w) (csv_log w) (stdout w)
                  (mkConn (packet_outs (switch_conn w) ++ [(payload, ok)])
                          (fails (switch_conn w)) (inbound (switch_conn w)))
                  (clock w)) /\
    ((ok = true /\ r = Returned tt) \/ (ok = false /\ exists e, r = Raised e)).
Proof.
  unfold PacketOut.
  destruct (fails (switch_conn w) (length (packet_outs (switch_conn w))) payload)
    as [e|]; eexists _, _; (split; [reflexivity|]); eauto.
Qed.

Lemma parse_packet_planter scapy_Ether raw_payload pkt p w :
  scapy_Ether raw_payload = Returned pkt ->
  get_Planter pkt = Some p ->
  exists p' imputed w1 ok w',
    impute_missing (clock w) (Planter.patient_id p) p w
      = (Returned (p', imputed), w1) /\
    parse_packet scapy_Ether raw_payload w = (Returned tt, w') /\
    rng w' = rng w1 /\ csv_log w' = csv_log w1 /\ clock w' = clock w /\
    packet_outs (switch_conn w') =
      packet_outs (switch_conn w) ++ [(raw (set_Planter pkt p'), ok)] /\
    fails (switch_conn w') = fails (switch_conn w) /\
    inbound (switch_conn w') = inbound (switch_conn w).
Proof.
  intros Hd Hp.
  destruct (impute_missing_run (clock w) (Planter.patient_id p) p w)
    as (p' & imputed & w1 & Hrun & Hc & Hk & _).
  unfold parse_packet, try_except, parse_packet_body.
  unfold bind at 1, dissect_Ether. rewrite Hd, Hp.
  unfold bind at 1, now. unfold bind at 1. rewrite Hrun.
  unfold bind at 1, print at 1. unfold bind at 1, print at 1.
  match goal with
  | |- context [PacketOut ?pl ?w2] =>
      destruct (PacketOut_run pl w2) as (ok & r & Hout & Hr); rewrite Hout
  end.
  cbn [rng csv_log stdout switch_conn clock] in *.
  exists p', imputed, w1, ok.
  destruct Hr as [[-> ->] | [-> [e ->]]].
  - eexists. split; [reflexivity|]. split; [reflexivity|].
    cbn. rewrite Hc, Hk. repeat split.
  - eexists. split; [reflexivity|]. split; [reflexivity|].
    cbn. rewrite Hc, Hk. repeat split.
Qed.

(** ** Properties of the Imputation Engine *)



(** C9. [impute_value] reads its argument and the generator, and nothing
    else: from two worlds whose generators are in the same state (whatever
    their logs, outputs, connections and clocks) the same sensor index gives
    the same value and leaves the generators in the same state; the call
    changes nothing but the generator; and the value the loop writes into a
    missing slot is that of [impute_value] for the slot's index, whatever the
    other slots of the vector hold. *)
Theorem impute_value_depends_on_sensor_and_generator_only
    (sensor_id : Z) (w1 w2 : World) :
  rng w1 = rng w2 ->
  fst (impute_value sensor_id w1) = fst (impute_value sensor_id w2) /\
  rng (snd (impute_value sensor_id w1)) = rng (snd (impute_value sensor_id w2)) /\
  (let w' := snd (impute_value sensor_id w1) in
   csv_log w' = csv_log w1 /\ stdout w' = stdout w1 /\
   switch_conn w' = switch_conn w1 /\ clock w' = clock w1) /\
  (forall t pid p b, 0 <= sensor_id < 5 -> feat p sensor_id = 0 ->
     exists v, fst (impute_value sensor_id w1) = Returned v /\
               fst (impute_slot t pid (p, b) sensor_id w1)
                 = Returned (Planter.setattr p sensor_id v, true)).
Proof.
  intros Hg.
  assert (forall w, impute_value sensor_id w =
                    (fst (impute_value sensor_id (mkWorld (rng w) [] [] (mkConn [] (fun _ _ => None) []) 0)),
                     mkWorld (rng (snd (impute_value sensor_id (mkWorld (rng w) [] [] (mkConn [] (fun _ _ => None) []) 0))))
                             (csv_log w) (stdout w) (switch_conn w) (clock w))) as Hform.
  { intros w. unfold impute_value.
    repeat (match goal with
            | |- context [if ?a =? ?b then _ else _] => destruct (Z.eqb_spec a b)
            end); destruct w; reflexivity. }
  rewrite (Hform w1), (Hform w2), Hg. cbn [fst snd rng csv_log stdout switch_conn clock].
  repeat split.
  intros t pid p b Hs H0.
  destruct (impute_slot_fill t pid p b sensor_id w1 Hs H0) as (v & g & _ & Hv & Hrun).
  exists v. rewrite Hrun. split; [|reflexivity].
  rewrite (Hform w1), Hg in Hv. injection Hv as Hv _. exact Hv.
Qed.

Lemma impute_value_depends_on_sensor_and_generator_only_witness :
  fst (impute_value 1 (world0 (fun _ => 5))) =
  fst (impute_value 1 (mkWorld (random.mk (fun _ => 5) 0) [mkRow 1 2 3 0 4] []
                               (mkConn [] (fun _ _ => None) []) 77)).
Proof.
  apply (impute_value_depends_on_sensor_and_generator_only 1
           (world0 (fun _ => 5))
           (mkWorld (random.mk (fun _ => 5) 0) [mkRow 1 2 3 0 4] []
                    (mkConn [] (fun _ _ => None) []) 77)).
  reflexivity.
Defined.

(** ** What [parse_packet] does with a feature vector *)

Lemma new_packet_outs_app w w' l :
  packet_outs (switch_conn w') = packet_outs (switch_conn w) ++ l ->
  new_packet_outs w w' = l.
Proof. unfold new_packet_outs. intros ->. apply drop_app_length. Qed.

Lemma audit_rows_app w w' l :
  csv_log w' = csv_log w ++ l -> audit_rows w w' = l.
Proof. unfold audit_rows. intros ->. apply drop_app_length. Qed.

Lemma in_sensor_range_pos i v : in_sensor_range i v -> 0 <= i < 5 /\ 12 <= v.
Proof. unfold in_sensor_range. lia. Qed.

Lemma parse_packet_summary scapy_Ether raw_payload pkt p w :
  scapy_Ether raw_payload = Returned pkt ->
  get_Planter pkt = Some p ->
  exists p' ok w',
    parse_packet scapy_Ether raw_payload w = (Returned tt, w') /\
    new_packet_outs w w' = [(raw (set_Planter pkt p'), ok)] /\
    audit_rows w w' =
      map (fun i => mkRow (clock w) (Planter.patient_id p) i 0 (feat p' i))
          (missing_slots p) /\
    same_header p p' /\
    (forall i, ~ (i < 5 /\ feat p i = 0) -> feat p' i = feat p i) /\
    (forall i, 0 <= i < 5 -> feat p i = 0 -> in_sensor_range i (feat p' i)).
Proof.
  intros Hd Hp.
  destruct (parse_packet_planter scapy_Ether raw_payload pkt p w Hd Hp)
    as (p' & imputed & w1 & ok & w' & Hloop & Hrun & _ & Hlog & _ & Hout & _).
  destruct (impute_missing_run (clock w) (Planter.patient_id p) p w)
    as (q & b & w2 & Hloop' & _ & _ & Hh & Hkeep & Hin & Hrows & _).
  rewrite Hloop in Hloop'. injection Hloop' as <- <- <-.
  exists p', ok, w'. split; [exact Hrun|].
  split; [apply new_packet_outs_app, Hout|].
  split; [apply audit_rows_app; rewrite Hlog; exact Hrows|].
  auto.
Qed.

Lemma logged_slot_map t pid p' l i :
  logged_slot (map (fun i => mkRow t pid i 0 (feat p' i)) l) i <-> i ∈ l.
Proof.
  unfold logged_slot. split.
  - intros (row & Hin & Hs). apply list_elem_of_fmap in Hin as (j & -> & Hj).
    simpl in Hs. subst. exact Hj.
  - intros Hi. eexists. split; [apply list_elem_of_fmap; eauto|]. reflexivity.
Qed.

Lemma changed_slots_missing p p' :
  (forall i, ~ (i < 5 /\ feat p i = 0) -> feat p' i = feat p i) ->
  (forall i, 0 <= i < 5 -> feat p i = 0 -> in_sensor_range i (feat p' i)) ->
  changed_slots p p' = missing_slots p.
Proof.
  intros Hkeep Hin. unfold changed_slots, missing_slots.
  apply filter_ext_elem. intros i Hi%range_10_elem. split.
  - intros Hne. destruct (decide (i < 5 /\ feat p i = 0)); [assumption|].
    exfalso. apply Hne. symmetry. apply Hkeep. assumption.
  - intros [Hlt H0]. specialize (Hin i ltac:(lia) H0).
    apply in_sensor_range_pos in Hin. lia.
Qed.

(** ** Imputation at finalization *)

(** C1, as stated, fails: the vector of patient 1000 with sensors 0-5
    observed and 6-9 absent dissects to a Planter header, is sent back byte
    for byte as it came, and nothing is logged, so none of the slots 6-9 is
    imputed or logged. *)
Lemma forced_vector_slots_6_to_9_not_imputed :
  let w := world0 (fun _ => 0) in
  let w' := snd (parse_packet Ether_dissect (frame_of patient_1000) w) in
  (Ether_dissect (frame_of patient_1000) =
     Returned (Ether.mk 0x080027bcfcb5 0x000400000000 ETHERTYPE_PLANTER
                        (PlanterLayer patient_1000 []))) /\
  new_packet_outs w w' = [(frame_of patient_1000, true)] /\
  audit_rows w w' = [] /\
  ~ (forall i, 6 <= i <= 9 -> logged_slot (audit_rows w w') i).
Proof.
  assert (audit_rows (world0 (fun _ => 0))
            (snd (parse_packet Ether_dissect (frame_of patient_1000)
                               (world0 (fun _ => 0)))) = []) as Hrows
      by (vm_compute; reflexivity).
  cbv zeta. split; [vm_compute; reflexivity|].
  split; [vm_compute; reflexivity|].
  split; [exact Hrows|].
  rewrite Hrows. intros H. destruct (H 6 ltac:(lia)) as (row & Hin & _).
  inversion Hin.
Qed.

(** C1, amended. For every frame that carries a Planter header, the
    controller sends the vector back once, with every slot among 0-4 that
    carried 0 replaced by a value in that sensor's range and recorded in the
    audit log; the slots 5-9 are sent back as they came and are never
    logged. *)
Theorem numeric_slots_imputed_and_logged
    (scapy_Ether : list byte -> outcome Ether.t)
    (raw_payload : list byte) (pkt : Ether.t) (p : Planter.t) (w : World) :
  scapy_Ether raw_payload = Returned pkt ->
  get_Planter pkt = Some p ->
  exists p' ok w',
    parse_packet scapy_Ether raw_payload w = (Returned tt, w') /\
    new_packet_outs w w' = [(raw (set_Planter pkt p'), ok)] /\
    (forall i, 0 <= i < 5 -> feat p i = 0 ->
       in_sensor_range i (feat p' i) /\
       mkRow (clock w) (Planter.patient_id p) i 0 (feat p' i) ∈ audit_rows w w') /\
    (forall i, 5 <= i -> feat p' i = feat p i /\ ~ logged_slot (audit_rows w w') i).
Proof.
  intros Hd Hp.
  destruct (parse_packet_summary scapy_Ether raw_payload pkt p w Hd Hp)
    as (p' & ok & w' & Hrun & Hout & Hrows & _ & Hkeep & Hin).
  exists p', ok, w'. split; [exact Hrun|]. split; [exact Hout|]. split.
  - intros i Hi H0. split; [auto|].
    rewrite Hrows. apply list_elem_of_fmap. exists i. split; [reflexivity|].
    apply missing_slots_elem. auto.
  - intros i Hi. split; [apply Hkeep; lia|].
    rewrite Hrows, logged_slot_map, missing_slots_elem. lia.
Qed.

Lemma numeric_slots_imputed_and_logged_witness :
  exists p' ok w',
    parse_packet Ether_dissect (frame_of patient_partial) (world0 (fun _ => 0))
      = (Returned tt, w') /\
    new_packet_outs (world0 (fun _ => 0)) w' =
      [(raw (set_Planter (Ether.mk 0x080027bcfcb5 0x000400000000 ETHERTYPE_PLANTER
                                   (PlanterLayer patient_partial [])) p'), ok)] /\
    (forall i, 0 <= i < 5 -> feat patient_partial i = 0 ->
       in_sensor_range i (feat p' i) /\
       mkRow 0 42 i 0 (feat p' i) ∈ audit_rows (world0 (fun _ => 0)) w') /\
    (forall i, 5 <= i -> feat p' i = feat patient_partial i /\
                         ~ logged_slot (audit_rows (world0 (fun _ => 0)) w') i).
Proof.
  apply (numeric_slots_imputed_and_logged Ether_dissect
           (frame_of patient_partial)
           (Ether.mk 0x080027bcfcb5 0x000400000000 ETHERTYPE_PLANTER
                     (PlanterLayer patient_partial []))
           patient_partial (world0 (fun _ => 0))).
  - vm_compute. reflexivity.
  - reflexivity.
Defined.

(** ** Which slots count as missing *)

(** C10, as stated, fails: in a complete vector whose AVPU reading is 0,
    slot 5 carries 0 and is neither replaced nor logged; the frame goes back
    as it came. *)
Lemma zero_valued_slot_5_not_imputed :
  let w := world0 (fun _ => 0) in
  let w' := snd (parse_packet Ether_dissect (frame_of patient_alert) w) in
  get_Planter (Ether.mk 0x080027bcfcb5 0x000400000000 ETHERTYPE_PLANTER
                        (PlanterLayer patient_alert [])) = Some patient_alert /\
  Ether_dissect (frame_of patient_alert) =
    Returned (Ether.mk 0x080027bcfcb5 0x000400000000 ETHERTYPE_PLANTER
                       (PlanterLayer patient_alert [])) /\
  feat patient_alert 5 = 0 /\
  new_packet_outs w w' = [(frame_of patient_alert, true)] /\
  ~ (forall i, 0 <= i < 10 ->
       (logged_slot (audit_rows w w') i <-> feat patient_alert i = 0)).
Proof.
  assert (audit_rows (world0 (fun _ => 0))
            (snd (parse_packet Ether_dissect (frame_of patient_alert)
                               (world0 (fun _ => 0)))) = []) as Hrows
      by (vm_compute; reflexivity).
  cbv zeta. split; [reflexivity|]. split; [vm_compute; reflexivity|].
  split; [reflexivity|]. split; [vm_compute; reflexivity|].
  rewrite Hrows. intros H.
  destruct (proj2 (H 5 ltac:(lia)) eq_refl) as (row & Hin & _).
  inversion Hin.
Qed.

(** C10, amended. Among the slots 0-4 a slot is treated as missing exactly
    when it carries 0: it is then logged and replaced by a synthetic value,
    which is never 0, so a reading of 0 in these slots cannot be told from
    an absent one.  The slots 5-9 are never treated as missing, whatever
    they carry. *)
Theorem slot_missing_iff_numeric_and_zero
    (scapy_Ether : list byte -> outcome Ether.t)
    (raw_payload : list byte) (pkt : Ether.t) (p : Planter.t) (w : World) :
  scapy_Ether raw_payload = Returned pkt ->
  get_Planter pkt = Some p ->
  exists p' ok w',
    parse_packet scapy_Ether raw_payload w = (Returned tt, w') /\
    new_packet_outs w w' = [(raw (set_Planter pkt p'), ok)] /\
    (forall i, 0 <= i < 5 ->
       (logged_slot (audit_rows w w') i <-> feat p i = 0) /\
       (feat p' i <> feat p i <-> feat p i = 0) /\
       (feat p i = 0 -> feat p' i <> 0)) /\
    (forall i, 5 <= i < 10 ->
       ~ logged_slot (audit_rows w w') i /\ feat p' i = feat p i).
Proof.
  intros Hd Hp.
  destruct (parse_packet_summary scapy_Ether raw_payload pkt p w Hd Hp)
    as (p' & ok & w' & Hrun & Hout & Hrows & _ & Hkeep & Hin).
  exists p', ok, w'. split; [exact Hrun|]. split; [exact Hout|]. split.
  - intros i Hi.
    assert (feat p i = 0 -> 12 <= feat p' i) as Hpos
        by (intros H0; apply (in_sensor_range_pos i), Hin; assumption).
    split; [|split].
    + rewrite Hrows, logged_slot_map, missing_slots_elem. tauto.
    + destruct (decide (feat p i = 0)) as [H0|Hn].
      * specialize (Hpos H0). lia.
      * rewrite Hkeep by tauto. tauto.
    + intros H0. specialize (Hpos H0). lia.
  - intros i Hi. split.
    + rewrite Hrows, logged_slot_map, missing_slots_elem. lia.
    + apply Hkeep. lia.
Qed.

Lemma slot_missing_iff_numeric_and_zero_witness :
  exists p' ok w',
    parse_packet Ether_dissect (frame_of patient_alert) (world0 (fun _ => 3))
      = (Returned tt, w') /\
    new_packet_outs (world0 (fun _ => 3)) w' =
      [(raw (set_Planter (Ether.mk 0x080027bcfcb5 0x000400000000 ETHERTYPE_PLANTER
                                   (PlanterLayer patient_alert [])) p'), ok)] /\
    (forall i, 0 <= i < 5 ->
       (logged_slot (audit_rows (world0 (fun _ => 3)) w') i
          <-> feat patient_alert i = 0) /\
       (feat p' i <> feat patient_alert i <-> feat patient_alert i = 0) /\
       (feat patient_alert i = 0 -> feat p' i <> 0)) /\
    (forall i, 5 <= i < 10 ->
       ~ logged_slot (audit_rows (world0 (fun _ => 3)) w') i /\
       feat p' i = feat patient_alert i).
Proof.
  apply (slot_missing_iff_numeric_and_zero Ether_dissect
           (frame_of patient_alert)
           (Ether.mk 0x080027bcfcb5 0x000400000000 ETHERTYPE_PLANTER
                     (PlanterLayer patient_alert []))
           patient_alert (world0 (fun _ => 3))).
  - vm_compute. reflexivity.
  - reflexivity.
Defined.

(** ** The audit log *)

Lemma parse_packet_csv_log scapy_Ether raw_payload pkt p w :
  scapy_Ether raw_payload = Returned pkt ->
  get_Planter pkt = Some p ->
  let w' := snd (parse_packet scapy_Ether raw_payload w) in
  csv_log w' = csv_log w ++ audit_rows w w'.
Proof.
  intros Hd Hp.
  destruct (parse_packet_planter scapy_Ether raw_payload pkt p w Hd Hp)
    as (p' & imputed & w1 & ok & w' & Hloop & Hrun & _ & Hlog & _).
  destruct (impute_missing_run (clock w) (Planter.patient_id p) p w)
    as (q & b & w2 & Hloop' & _ & _ & _ & _ & _ & Hrows & _).
  rewrite Hloop in Hloop'. injection Hloop' as <- <- <-.
  rewrite Hrun. cbn [snd]. rewrite Hlog in *.
  rewrite (audit_rows_app w w' _ ltac:(rewrite Hlog; exact Hrows)).
  exact Hrows.
Qed.

Lemma rows_per_slot t pid p' (l : list Z) i :
  NoDup l ->
  length (filter (fun r => row_sensor_id r = i)
                 (map (fun i => mkRow t pid i 0 (feat p' i)) l))
  = if decide (i ∈ l) then 1%nat else 0%nat.
Proof.
  induction l as [|a l IH]; intros Hnd.
  - simpl. destruct (decide (i ∈ [])) as [Hi|]; [inversion Hi | reflexivity].
  - apply NoDup_cons in Hnd as [Ha Hnd]. cbn [map]. rewrite filter_cons.
    cbn [row_sensor_id]. specialize (IH Hnd).
    destruct (decide (a = i)) as [->|Hne].
    + cbn [length]. rewrite IH.
      destruct (decide (i ∈ l)); [contradiction|].
      destruct (decide (i ∈ i :: l)) as [|Hn]; [reflexivity|].
      exfalso. apply Hn. left.
    + rewrite IH.
      destruct (decide (i ∈ l)) as [Hi|Hi];
        destruct (decide (i ∈ a :: l)) as [Hj|Hj]; try reflexivity.
      * exfalso. apply Hj. right. exact Hi.
      * apply elem_of_cons in Hj as [->|Hj]; contradiction.
Qed.

(** C6. Processing a feature vector appends to the audit log exactly one
    row per slot whose value was replaced, in slot order: the row holds the
    reception time, the patient, the slot, the old value 0 and the value
    written; when no slot was replaced the log is left as it was. *)
Theorem one_audit_row_per_imputed_slot
    (scapy_Ether : list byte -> outcome Ether.t)
    (raw_payload : list byte) (pkt : Ether.t) (p : Planter.t) (w : World) :
  scapy_Ether raw_payload = Returned pkt ->
  get_Planter pkt = Some p ->
  exists p' ok w',
    parse_packet scapy_Ether raw_payload w = (Returned tt, w') /\
    new_packet_outs w w' = [(raw (set_Planter pkt p'), ok)] /\
    csv_log w' = csv_log w ++ audit_rows w w' /\
    audit_rows w w' =
      map (fun i => mkRow (clock w) (Planter.patient_id p) i 0 (feat p' i))
          (changed_slots p p') /\
    (forall i, length (filter (fun r => row_sensor_id r = i) (audit_rows w w'))
               = if decide (i ∈ changed_slots p p') then 1%nat else 0%nat) /\
    (changed_slots p p' = [] -> csv_log w' = csv_log w).
Proof.
  intros Hd Hp.
  pose proof (parse_packet_csv_log scapy_Ether raw_payload pkt p w Hd Hp) as Hcsv.
  destruct (parse_packet_summary scapy_Ether raw_payload pkt p w Hd Hp)
    as (p' & ok & w' & Hrun & Hout & Hrows & _ & Hkeep & Hin).
  rewrite Hrun in Hcsv. cbn [snd] in Hcsv.
  rewrite <- (changed_slots_missing p p' Hkeep Hin) in Hrows.
  exists p', ok, w'. split; [exact Hrun|]. split; [exact Hout|].
  split; [exact Hcsv|]. split; [exact Hrows|]. split.
  - intros i. rewrite Hrows. apply rows_per_slot.
    unfold changed_slots. apply NoDup_filter, range_10_NoDup.
  - intros Hnone. rewrite Hcsv, Hrows, Hnone. apply app_nil_r.
Qed.

Lemma one_audit_row_per_imputed_slot_witness :
  exists p' ok w',
    parse_packet Ether_dissect (frame_of patient_partial) (world0 (fun _ => 9))
      = (Returned tt, w') /\
    new_packet_outs (world0 (fun _ => 9)) w' =
      [(raw (set_Planter (Ether.mk 0x080027bcfcb5 0x000400000000 ETHERTYPE_PLANTER
                                   (PlanterLayer patient_partial [])) p'), ok)] /\
    csv_log w' = [] ++ audit_rows (world0 (fun _ => 9)) w' /\
    audit_rows (world0 (fun _ => 9)) w' =
      map (fun i => mkRow 0 42 i 0 (feat p' i)) (changed_slots patient_partial p') /\
    (forall i, length (filter (fun r => row_sensor_id r = i)
                              (audit_rows (world0 (fun _ => 9)) w'))
               = if decide (i ∈ changed_slots patient_partial p')
                 then 1%nat else 0%nat) /\
    (changed_slots patient_partial p' = [] -> csv_log w' = []).
Proof.
  apply (one_audit_row_per_imputed_slot Ether_dissect
           (frame_of patient_partial)
           (Ether.mk 0x080027bcfcb5 0x000400000000 ETHERTYPE_PLANTER
                     (PlanterLayer patient_partial []))
           patient_partial (world0 (fun _ => 9))).
  - vm_compute. reflexivity.
  - reflexivity.
Defined.

(** ** Printing does not steer the controller *)

Lemma same_but_stdout_refl w : same_but_stdout w w.
Proof. repeat split. Qed.

Lemma same_but_stdout_sym w1 w2 : same_but_stdout w1 w2 -> same_but_stdout w2 w1.
Proof. unfold same_but_stdout. intuition congruence. Qed.

Lemma same_but_stdout_trans w1 w2 w3 :
  same_but_stdout w1 w2 -> same_but_stdout w2 w3 -> same_but_stdout w1 w3.
Proof. unfold same_but_stdout. intuition congruence. Qed.

Lemma blind_ret {A} (a : A) : stdout_blind (ret a).
Proof. intros w1 w2 H. split; [reflexivity | exact H]. Qed.

Lemma blind_raise {A} e : stdout_blind (@raise A e).
Proof. intros w1 w2 H. split; [reflexivity | exact H]. Qed.

Lemma blind_bind {A B} (m : M A) (k : A -> M B) :
  stdout_blind m -> (forall a, stdout_blind (k a)) -> stdout_blind (bind m k).
Proof.
  intros Hm Hk w1 w2 H. unfold bind.
  destruct (Hm w1 w2 H) as [Hr Hw].
  destruct (m w1) as [[a1|e1] v1], (m w2) as [[a2|e2] v2];
    cbn [fst snd] in *; try discriminate.
  - injection Hr as ->. apply Hk, Hw.
  - injection Hr as ->. split; [reflexivity | exact Hw].
Qed.

Lemma blind_try_except {A} (m : M A) (h : Exn -> M A) :
  stdout_blind m -> (forall e, stdout_blind (h e)) -> stdout_blind (try_except m h).
Proof.
  intros Hm Hh w1 w2 H. unfold try_except.
  destruct (Hm w1 w2 H) as [Hr Hw].
  destruct (m w1) as [[a1|e1] v1], (m w2) as [[a2|e2] v2];
    cbn [fst snd] in *; try discriminate.
  - split; [exact Hr | exact Hw].
  - injection Hr as ->. apply Hh, Hw.
Qed.

Lemma blind_try_except_rpc {A} (m : M A) (h : Exn -> M A) :
  stdout_blind m -> (forall e, stdout_blind (h e)) ->
  stdout_blind (try_except_rpc m h).
Proof.
  intros Hm Hh w1 w2 H. unfold try_except_rpc.
  destruct (Hm w1 w2 H) as [Hr Hw].
  destruct (m w1) as [[a1|e1] v1], (m w2) as [[a2|e2] v2];
    cbn [fst snd] in *; try discriminate.
  - split; [exact Hr | exact Hw].
  - injection Hr as ->. destruct e2; try (split; [reflexivity | exact Hw]).
    apply Hh, Hw.
Qed.

Lemma blind_for_each {A S} (xs : list A) (body : S -> A -> M S) :
  (forall s x, stdout_blind (body s x)) ->
  forall s, stdout_blind (for_each xs body s).
Proof.
  intros Hb. induction xs as [|x xs IH]; intros s; cbn [for_each].
  - apply blind_ret.
  - apply blind_bind; [apply Hb | exact IH].
Qed.

Lemma blind_print m : stdout_blind (print m).
Proof. intros w1 w2 H. split; [reflexivity | exact H]. Qed.

Lemma blind_now : stdout_blind now.
Proof.
  intros w1 w2 H. split; [|exact H]. unfold now. cbn. f_equal. apply H.
Qed.

Lemma blind_sleep secs : stdout_blind (sleep secs).
Proof.
  intros w1 w2 (Hg & Hl & Hc & Hk). split; [reflexivity|].
  unfold sleep, same_but_stdout. cbn. rewrite Hk. auto.
Qed.

Lemma blind_randint a b : stdout_blind (randint a b).
Proof.
  intros w1 w2 (Hg & Hl & Hc & Hk). unfold randint, same_but_stdout.
  rewrite Hg. cbn. auto.
Qed.

Lemma blind_log_imputation t pid s o n : stdout_blind (log_imputation t pid s o n).
Proof.
  intros w1 w2 (Hg & Hl & Hc & Hk). unfold log_imputation, same_but_stdout.
  cbn. rewrite Hl. auto.
Qed.

Lemma blind_PacketOut payload : stdout_blind (PacketOut payload).
Proof.
  intros w1 w2 (Hg & Hl & Hc & Hk). unfold PacketOut, same_but_stdout.
  rewrite Hc. destruct (fails _ _ _); cbn; auto.
Qed.

Lemma blind_PacketIn : stdout_blind PacketIn.
Proof.
  intros w1 w2 (Hg & Hl & Hc & Hk). unfold PacketIn, same_but_stdout.
  rewrite Hc. destruct (inbound _) as [|[| |] ?]; cbn; auto.
Qed.

Lemma blind_impute_value sensor_id : stdout_blind (impute_value sensor_id).
Proof.
  unfold impute_value.
  repeat (match goal with
          | |- context [if ?c then _ else _] => destruct c
          end); first [apply blind_randint | apply blind_ret].
Qed.

Lemma blind_impute_slot t pid st x : stdout_blind (impute_slot t pid st x).
Proof.
  destruct st as [p b]. unfold impute_slot.
  destruct (existsb _ _); [apply blind_ret|].
  apply blind_bind.
  - unfold getattr. destruct (Planter.getattr p x);
      [apply blind_ret | apply blind_raise].
  - intros v. destruct (v =? 0); [|apply blind_ret].
    apply blind_bind; [apply blind_impute_value|]. intros nv.
    apply blind_bind; [apply blind_log_imputation|]. intros _.
    apply blind_bind; [apply blind_print|]. intros _. apply blind_ret.
Qed.

Lemma blind_parse_packet scapy_Ether raw_payload :
  stdout_blind (parse_packet scapy_Ether raw_payload).
Proof.
  unfold parse_packet. apply blind_try_except; [|intros; apply blind_print].
  unfold parse_packet_body. apply blind_bind.
  - intros w1 w2 H. split; [reflexivity | exact H].
  - intros pkt. destruct (get_Planter pkt) as [p|]; [|apply blind_print].
    apply blind_bind; [apply blind_now|]. intros t.
    apply blind_bind; [apply blind_for_each; intros; apply blind_impute_slot|].
    intros [p' b]. apply blind_bind; [apply blind_print|]. intros _.
    apply blind_bind; [apply blind_print|]. intros _. apply blind_PacketOut.
Qed.

Lemma blind_handle_packet_in scapy_Ether :
  stdout_blind (handle_packet_in scapy_Ether).
Proof.
  unfold handle_packet_in.
  apply blind_try_except_rpc; [|intros; apply blind_print].
  apply blind_bind; [apply blind_PacketIn|]. intros [payload|]; [|apply blind_ret].
  apply blind_bind; [apply blind_print|]. intros _. apply blind_parse_packet.
Qed.

Lemma blind_main_loop scapy_Ether rounds :
  stdout_blind (main_loop scapy_Ether rounds).
Proof.
  induction rounds as [|n IH]; cbn [main_loop]; [apply blind_ret|].
  apply blind_bind; [apply blind_handle_packet_in | intros _; exact IH].
Qed.

(** ** Decoding failures are not fatal *)

Lemma parse_packet_undecodable scapy_Ether raw_payload w :
  undecodable scapy_Ether raw_payload ->
  exists msg,
    parse_packet scapy_Ether raw_payload w =
      (Returned tt,
       mkWorld (rng w) (csv_log w) (stdout w ++ [msg]) (switch_conn w) (clock w)) /\
    (msg = NoPlanterHeader \/ exists e, msg = ErrorParsing e).
Proof.
  unfold undecodable, parse_packet, try_except, parse_packet_body.
  unfold bind at 1, dissect_Ether.
  destruct (scapy_Ether raw_payload) as [pkt|e]; intros Hu.
  - rewrite Hu. exists NoPlanterHeader. split; [reflexivity | left; reflexivity].
  - exists (ErrorParsing e). split; [reflexivity | right; eauto].
Qed.

Lemma handle_packet_in_undecodable scapy_Ether raw_payload w pending :
  undecodable scapy_Ether raw_payload ->
  exists w1,
    handle_packet_in scapy_Ether (set_inbound w (InPacket raw_payload :: pending))
      = (Returned tt, w1) /\
    same_but_stdout w1 (set_inbound w pending).
Proof.
  intros Hu. unfold handle_packet_in, try_except_rpc.
  unfold bind at 1, PacketIn at 1, set_inbound at 1.
  cbn [switch_conn inbound rng csv_log stdout clock packet_outs fails].
  unfold bind at 1, print at 1.
  cbn [switch_conn inbound rng csv_log stdout clock packet_outs fails].
  match goal with
  | |- context [parse_packet scapy_Ether raw_payload ?w0] =>
      destruct (parse_packet_undecodable scapy_Ether raw_payload w0 Hu)
        as (msg & -> & _)
  end.
  eexists. split; [reflexivity|]. repeat split.
Qed.

(** C7. A payload that does not decode (the dissector raises, or the frame
    has no Planter header) makes [parse_packet] return normally after
    printing one message; no [PacketOut] is made, nothing is logged, nothing
    but standard output changes.  The main loop goes on: with the offending
    packet at the head of the queue it handles the packets behind it exactly
    as it would have without it. *)
Theorem undecodable_packet_dropped
    (scapy_Ether : list byte -> outcome Ether.t)
    (raw_payload : list byte) (w : World) :
  undecodable scapy_Ether raw_payload ->
  (exists msg,
     parse_packet scapy_Ether raw_payload w =
       (Returned tt,
        mkWorld (rng w) (csv_log w) (stdout w ++ [msg]) (switch_conn w) (clock w)) /\
     (msg = NoPlanterHeader \/ exists e, msg = ErrorParsing e)) /\
  new_packet_outs w (snd (parse_packet scapy_Ether raw_payload w)) = [] /\
  audit_rows w (snd (parse_packet scapy_Ether raw_payload w)) = [] /\
  (forall rounds pending,
     let w_bad := set_inbound w (InPacket raw_payload :: pending) in
     let w_rest := set_inbound w pending in
     fst (main_loop scapy_Ether (S rounds) w_bad)
       = fst (main_loop scapy_Ether rounds w_rest) /\
     same_but_stdout (snd (main_loop scapy_Ether (S rounds) w_bad))
                     (snd (main_loop scapy_Ether rounds w_rest))).
Proof.
  intros Hu.
  destruct (parse_packet_undecodable scapy_Ether raw_payload w Hu)
    as (msg & Hrun & Hmsg).
  split; [exists msg; split; assumption|]. rewrite Hrun. cbn [snd].
  split; [apply new_packet_outs_app; cbn; symmetry; apply app_nil_r|].
  split; [apply audit_rows_app; cbn; symmetry; apply app_nil_r|].
  intros rounds pending. cbn [main_loop]. unfold bind.
  destruct (handle_packet_in_undecodable scapy_Ether raw_payload w pending Hu)
    as (w1 & -> & Hsame).
  apply blind_main_loop, Hsame.
Qed.

Lemma undecodable_packet_dropped_witness :
  new_packet_outs (world0 (fun _ => 0))
    (snd (parse_packet Ether_dissect [x00; x01; x02] (world0 (fun _ => 0)))) = [].
Proof.
  apply (undecodable_packet_dropped Ether_dissect [x00; x01; x02]
                                    (world0 (fun _ => 0))).
  exact I.
Defined.

(** ** The heartbeat sender *)

Lemma heartbeat_sends_run pids :
  forall w,
    for_each pids heartbeat_send tt w =
      (Returned tt,
       mkWorld (rng w) (csv_log w)
         (stdout w ++ heartbeat_errors (fails (switch_conn w))
                        (length (packet_outs (switch_conn w))) pids)
         (mkConn (packet_outs (switch_conn w) ++
                    heartbeat_calls (fails (switch_conn w))
                      (length (packet_outs (switch_conn w))) pids)
                 (fails (switch_conn w)) (inbound (switch_conn w)))
         (clock w)).
Proof.
  induction pids as [|pid pids IH]; intros w.
  - cbn. rewrite !app_nil_r. destruct w as [g l o [po f i] c]. reflexivity.
  - cbn [for_each heartbeat_calls heartbeat_errors]. unfold bind at 1.
    unfold heartbeat_send at 1, try_except, PacketOut at 1.
    destruct (fails (switch_conn w) (length (packet_outs (switch_conn w)))
                    (raw (heartbeat_pkt pid))) as [e|] eqn:Hf.
    + unfold print at 1. rewrite IH.
      cbn [rng csv_log stdout switch_conn clock packet_outs fails inbound].
      rewrite length_app, Nat.add_1_r, <- !app_assoc. reflexivity.
    + rewrite IH.
      cbn [rng csv_log stdout switch_conn clock packet_outs fails inbound].
      rewrite length_app, Nat.add_1_r, <- !app_assoc. reflexivity.
Qed.

Lemma heartbeat_calls_frames fails n pids :
  map fst (heartbeat_calls fails n pids) = map (fun pid => raw (heartbeat_pkt pid)) pids.
Proof.
  revert n. induction pids as [|pid pids IH]; intros n; [reflexivity|].
  cbn. f_equal. apply IH.
Qed.


Lemma heartbeat_tick_run w :
  heartbeat_tick w =
    (Returned tt,
     mkWorld (rng w) (csv_log w)
       (stdout w ++ heartbeat_errors (fails (switch_conn w))
                      (length (packet_outs (switch_conn w))) (range NUM_PATIENTS)
                 ++ [SentHeartbeats (clock w)])
       (mkConn (packet_outs (switch_conn w) ++
                  heartbeat_calls (fails (switch_conn w))
                    (length (packet_outs (switch_conn w))) (range NUM_PATIENTS))
               (fails (switch_conn w)) (inbound (switch_conn w)))
       (clock w + HEARTBEAT_NS)).
Proof.
  unfold heartbeat_tick. unfold bind at 1. rewrite heartbeat_sends_run.
  unfold bind, now, print, sleep.
  cbn [rng csv_log stdout switch_conn clock]. rewrite <- app_assoc. reflexivity.
Qed.

Lemma heartbeat_errors_elem fails pids :
  forall n k pid e,
    pids !! k = Some pid ->
    fails (n + k)%nat (raw (heartbeat_pkt pid)) = Some e ->
    ErrorHeartbeat pid e ∈ heartbeat_errors fails n pids.
Proof.
  induction pids as [|a pids IH]; intros n k pid e Hk Hf; [discriminate|].
  cbn [heartbeat_errors]. destruct k as [|k].
  - injection Hk as ->. rewrite Nat.add_0_r in Hf. rewrite Hf. left.
  - cbn in Hk. assert (ErrorHeartbeat pid e ∈ heartbeat_errors fails (S n) pids).
    { apply (IH (S n) k); [exact Hk|].
      replace (S n + k)%nat with (n + S k)%nat by lia. exact Hf. }
    destruct (fails n (raw (heartbeat_pkt a))); [right|]; assumption.
Qed.

Lemma printed_app w w' l : stdout w' = stdout w ++ l -> printed w w' = l.
Proof. unfold printed. intros ->. apply drop_app_length. Qed.

Lemma range_elem n pid : pid ∈ range n <-> 0 <= pid < n.
Proof.
  unfold range. rewrite list_elem_of_fmap. split.
  - intros (k & -> & Hk). apply elem_of_seq in Hk. lia.
  - intros H. exists (Z.to_nat pid). split; [lia|]. apply elem_of_seq. lia.
Qed.


(** C8. Whatever calls the connection fails, one tick returns normally and
    makes the [PacketOut] call of every patient of [0, NUM_PATIENTS), in
    order; a failed call is recorded as failed and reported on standard
    output with the patient's id, and the calls after it are made all the
    same. *)
Theorem heartbeat_send_failure_is_local (w : World) :
  exists w',
    heartbeat_tick w = (Returned tt, w') /\
    new_packet_outs w w' =
      heartbeat_calls (fails (switch_conn w))
                      (length (packet_outs (switch_conn w)))
                      (range NUM_PATIENTS) /\
    map fst (new_packet_outs w w') = heartbeat_frames /\
    (forall k pid e,
       range NUM_PATIENTS !! k = Some pid ->
       fails (switch_conn w) (length (packet_outs (switch_conn w)) + k)%nat
             (raw (heartbeat_pkt pid)) = Some e ->
       ErrorHeartbeat pid e ∈ printed w w' /\
       new_packet_outs w w' !! k = Some (raw (heartbeat_pkt pid), false) /\
       (forall k' pid', range NUM_PATIENTS !! k' = Some pid' ->
          exists ok, new_packet_outs w w' !! k' = Some (raw (heartbeat_pkt pid'), ok))).
Proof.
  eexists. split; [apply heartbeat_tick_run|].
  set (c := switch_conn w). set (n0 := length (packet_outs c)).
  assert (forall fl pids n k pid,
            pids !! k = Some pid ->
            heartbeat_calls fl n pids !! k =
              Some (raw (heartbeat_pkt pid),
                    match fl (n + k)%nat (raw (heartbeat_pkt pid)) with
                    | None => true | Some _ => false end)) as Hcall.
  { intros fl pids. induction pids as [|a pids IH]; intros n k pid Hk;
      [discriminate|].
    destruct k as [|k].
    - injection Hk as ->. rewrite Nat.add_0_r. reflexivity.
    - replace (n + S k)%nat with (S n + k)%nat by lia.
      exact (IH (S n) k pid Hk). }
  match goal with
  | |- new_packet_outs w ?w1 = _ /\ _ =>
      assert (new_packet_outs w w1 = heartbeat_calls (fails c) n0 (range NUM_PATIENTS))
        as Hnew by (apply new_packet_outs_app; reflexivity);
      assert (printed w w1 =
              heartbeat_errors (fails c) n0 (range NUM_PATIENTS)
                ++ [SentHeartbeats (clock w)])
        as Hpr by (apply printed_app; reflexivity)
  end.
  rewrite Hnew, Hpr. split; [reflexivity|].
  split; [apply heartbeat_calls_frames|].
  intros k pid e Hk Hf. split; [|split].
  - apply elem_of_app. left. eapply heartbeat_errors_elem; eassumption.
  - rewrite (Hcall _ _ _ _ _ Hk). fold c n0 in Hf. rewrite Hf. reflexivity.
  - intros k' pid' Hk'. rewrite (Hcall _ _ _ _ _ Hk'). eauto.
Qed.

(** A tick on a connection that fails the calls of patients 1 and 5: both
    failures are reported, and all 2000 calls are made. *)
Lemma heartbeat_tick_with_two_failures :
  let w := mkWorld (random.mk (fun _ => 0) 0) [] []
                   (mkConn [] (failing_on [1%nat; 5%nat]) []) 100 in
  let w' := snd (heartbeat_tick w) in
  fst (heartbeat_tick w) = Returned tt /\
  printed w w' = [ErrorHeartbeat 1 (RpcError 14); ErrorHeartbeat 5 (RpcError 14);
                  SentHeartbeats 100] /\
  length (new_packet_outs w w') = 2000%nat /\
  map snd (firstn 7 (new_packet_outs w w'))
    = [true; false; true; true; true; false; true] /\
  clock w' = 115.
Proof. vm_compute. repeat split. Qed.







(** ** The Window Store: first value wins *)

Section WindowStore.
Import Window WindowFacts.

Lemma update_slot_holds pid sid v pid' sid' v' ts now st :
  holds pid sid v st ->
  holds pid sid v (update_slot pid' sid' v' ts now st).
Proof.
  intros (w & Hw & Hf & Hs). unfold update_slot.
  destruct (bool_decide (0 <= sid' < N)); [|exists w; auto].
  destruct (decide (pid' = pid)) as [->|Hne].
  - rewrite Hw, Hf. destruct (slots w !! sid') as [old|] eqn:Hold.
    + exists w. auto.
    + eexists. cbn [windows]. rewrite lookup_insert_eq.
      split; [reflexivity|]. cbn. split; [reflexivity|].
      rewrite lookup_insert_ne; [exact Hs|]. congruence.
  - assert (forall st', windows st' = <[pid' := default w (windows st' !! pid')]> (windows st) ->
                        holds pid sid v st') as Hother.
    { intros st' E. exists w. rewrite E, lookup_insert_ne by exact Hne. auto. }
    destruct (windows st !! pid') as [w'|] eqn:Hw'.
    + destruct (finalized w').
      * apply Hother. unfold open_window. cbn [windows].
        rewrite lookup_insert_eq. reflexivity.
      * destruct (slots w' !! sid').
        -- exists w. auto.
        -- apply Hother. cbn [windows]. rewrite lookup_insert_eq. reflexivity.
    + apply Hother. unfold open_window. cbn [windows].
      rewrite lookup_insert_eq. reflexivity.
Qed.

Lemma updates_holds pid sid v us :
  forall st, holds pid sid v st -> holds pid sid v (updates us st).
Proof.
  unfold updates. induction us as [|ev us IH]; intros st H; [exact H|].
  cbn [fold_left]. apply IH, update_slot_holds, H.
Qed.

Lemma update_slot_first pid sid v ts now st :
  0 <= sid < N -> vacant pid sid st ->
  holds pid sid v (update_slot pid sid v ts now st).
Proof.
  intros Hr Hv. unfold update_slot, vacant in *.
  rewrite bool_decide_eq_true_2 by exact Hr.
  destruct (windows st !! pid) as [w|].
  - destruct Hv as [-> ->]. eexists. cbn [windows]. rewrite lookup_insert_eq.
    split; [reflexivity|]. cbn. split; [reflexivity|]. apply lookup_insert_eq.
  - eexists. unfold open_window. cbn [windows]. rewrite lookup_insert_eq.
    split; [reflexivity|]. cbn. split; [reflexivity|]. apply lookup_singleton_eq.
Qed.

Lemma holds_slot pid sid v st : holds pid sid v st -> slot pid sid st = Some v.
Proof. intros (w & Hw & _ & Hs). unfold slot. rewrite Hw. exact Hs. Qed.

End WindowStore.

(** ** The Submission Gate: one submission per window *)

Section SubmissionGate.
Import Window WindowFacts.

Lemma open_window_numbered pid sid v ts now st :
  well_numbered st ->
  well_numbered (open_window pid sid v ts now st) /\
  (forall s, live (open_window pid sid v ts now st) s -> live st s).
Proof.
  intros [Hlt Hinj]. unfold open_window. split; [split|].
  - intros p w. cbn [windows opened]. destruct (decide (p = pid)) as [->|Hne].
    + rewrite lookup_insert_eq. intros [= <-]. cbn. lia.
    + rewrite lookup_insert_ne by congruence. intros Hw.
      specialize (Hlt _ _ Hw). lia.
  - intros p1 p2 w1 w2. cbn [windows].
    destruct (decide (p1 = pid)) as [->|H1], (decide (p2 = pid)) as [->|H2];
      rewrite ?lookup_insert_eq, ?lookup_insert_ne by congruence; auto.
    + intros [= <-] Hw2 Hs. cbn in Hs. specialize (Hlt _ _ Hw2). lia.
    + intros Hw1 [= <-] Hs. cbn in Hs. specialize (Hlt _ _ Hw1). lia.
    + apply Hinj.
  - intros s [(p & w & Hw & Hs) | Hs]; cbn [windows opened] in *.
    + destruct (decide (p = pid)) as [->|Hne].
      * rewrite lookup_insert_eq in Hw. injection Hw as <-. cbn in Hs.
        right. lia.
      * rewrite lookup_insert_ne in Hw by congruence. left. eauto.
    + right. lia.
Qed.

Lemma replace_window_numbered pid w w' st :
  windows st !! pid = Some w -> serial w' = serial w ->
  well_numbered st ->
  well_numbered (mkStore (<[pid := w']> (windows st)) (opened st)) /\
  (forall s, live (mkStore (<[pid := w']> (windows st)) (opened st)) s -> live st s).
Proof.
  intros Hw Hser [Hlt Hinj]. split; [split|].
  - intros p w0. cbn [windows opened]. destruct (decide (p = pid)) as [->|Hne].
    + rewrite lookup_insert_eq. intros [= <-]. rewrite Hser. eauto.
    + rewrite lookup_insert_ne by congruence. apply Hlt.
  - intros p1 p2 w1 w2. cbn [windows].
    destruct (decide (p1 = pid)) as [->|H1], (decide (p2 = pid)) as [->|H2];
      rewrite ?lookup_insert_eq, ?lookup_insert_ne by congruence; auto.
    + intros [= <-] Hw2 Hs. rewrite Hser in Hs. eapply Hinj; eauto.
    + intros Hw1 [= <-] Hs. rewrite Hser in Hs. eapply Hinj; eauto.
    + apply Hinj.
  - intros s [(p & w0 & Hw0 & Hs) | Hs]; cbn [windows opened] in *.
    + destruct (decide (p = pid)) as [->|Hne].
      * rewrite lookup_insert_eq in Hw0. injection Hw0 as <-.
        left. exists pid, w. split; [exact Hw | congruence].
      * rewrite lookup_insert_ne in Hw0 by congruence. left. eauto.
    + right. exact Hs.
Qed.

Lemma update_slot_numbered pid sid v ts now st :
  well_numbered st ->
  well_numbered (update_slot pid sid v ts now st) /\
  (forall s, live (update_slot pid sid v ts now st) s -> live st s).
Proof.
  intros Hwn. unfold update_slot.
  destruct (bool_decide (0 <= sid < N)); [|auto].
  destruct (windows st !! pid) as [w|] eqn:Hw;
    [|apply open_window_numbered, Hwn].
  destruct (finalized w); [apply open_window_numbered, Hwn|].
  destruct (slots w !! sid); [auto|].
  apply (replace_window_numbered pid w); auto.
Qed.

Lemma finalize_numbered forced pid st st' out :
  well_numbered st ->
  finalize forced pid st = (st', out) ->
  well_numbered st' /\
  (forall s, live st' s -> live st s) /\
  (length out <= 1)%nat /\
  (forall sub, sub ∈ out ->
     live st (sub_serial sub) /\ ~ live st' (sub_serial sub) /\
     sub_patient_id sub = pid /\ sub_forced sub = forced) /\
  windows st' !! pid = None.
Proof.
  intros [Hlt Hinj]. unfold finalize, snapshot_and_clear.
  assert (well_numbered (mkStore (delete pid (windows st)) (opened st))) as Hwn'.
  { split.
    - intros p w. cbn [windows opened]. intros Hw.
      apply lookup_delete_Some in Hw as [_ Hw]. eauto.
    - intros p1 p2 w1 w2. cbn [windows]. intros H1 H2.
      apply lookup_delete_Some in H1 as [_ H1].
      apply lookup_delete_Some in H2 as [_ H2]. eauto. }
  assert (forall s, live (mkStore (delete pid (windows st)) (opened st)) s -> live st s)
    as Hlive.
  { intros s [(p & w & Hw & Hs) | Hs]; [left | right; exact Hs].
    cbn [windows] in Hw. apply lookup_delete_Some in Hw as [_ Hw]. eauto. }
  destruct (windows st !! pid) as [w|] eqn:Hw; intros [= <- <-].
  - split; [exact Hwn'|]. split; [exact Hlive|]. split; [cbn; lia|].
    split; [|cbn; apply lookup_delete_eq].
    intros sub Hsub. apply list_elem_of_singleton in Hsub as ->. cbn.
    split; [left; eauto|]. split; [|auto].
    intros [(p & w0 & Hw0 & Hs) | Hs]; cbn [windows opened] in *.
    + apply lookup_delete_Some in Hw0 as [Hne Hw0].
      apply Hne. symmetry. eapply Hinj; eauto.
    + specialize (Hlt _ _ Hw). lia.
  - split; [exact Hwn'|]. split; [exact Hlive|]. split; [cbn; lia|].
    split; [|cbn; apply lookup_delete_eq].
    intros sub Hsub. inversion Hsub.
Qed.

Lemma ingest_numbered ev st st' out :
  well_numbered st ->
  ingest ev st = (st', out) ->
  well_numbered st' /\
  (forall s, live st' s -> live st s) /\
  (length out <= 1)%nat /\
  (forall sub, sub ∈ out ->
     live st (sub_serial sub) /\ ~ live st' (sub_serial sub) /\
     sub_patient_id sub = Sensor.patient_id (reading ev) /\
     windows st' !! sub_patient_id sub = None).
Proof.
  intros Hwn. unfold ingest.
  set (pid := Sensor.patient_id (reading ev)).
  set (st1 := update_slot pid _ _ _ _ st).
  destruct (update_slot_numbered pid (Sensor.sensor_id (reading ev))
              (Sensor.feature_value (reading ev)) (Sensor.timestamp (reading ev))
              (received_at ev) st Hwn) as [Hwn1 Hlive1].
  fold st1 in Hwn1, Hlive1.
  assert (forall forced, finalize forced pid st1 = (st', out) ->
            well_numbered st' /\
            (forall s, live st' s -> live st s) /\
            (length out <= 1)%nat /\
            (forall sub, sub ∈ out ->
               live st (sub_serial sub) /\ ~ live st' (sub_serial sub) /\
               sub_patient_id sub = pid /\
               windows st' !! sub_patient_id sub = None)) as Hfin.
  { intros forced Hf.
    destruct (finalize_numbered forced pid st1 st' out Hwn1 Hf)
      as (Hwn' & Hlive' & Hlen & Hsub & Hnone).
    split; [exact Hwn'|]. split; [auto|]. split; [exact Hlen|].
    intros sub Hin. destruct (Hsub sub Hin) as (Hl & Hnl & Hp & _).
    rewrite Hp. auto. }
  destruct (is_complete pid st1); [apply Hfin|].
  destruct (timed_out (received_at ev) pid st1); [apply Hfin|].
  intros [= <- <-]. split; [exact Hwn1|]. split; [exact Hlive1|].
  split; [cbn; lia|]. intros sub Hin. inversion Hin.
Qed.

Lemma run_numbered evs :
  forall st st' out,
    well_numbered st ->
    run evs st = (st', out) ->
    well_numbered st' /\
    (forall s, live st' s -> live st s) /\
    (forall sub, sub ∈ out -> live st (sub_serial sub)) /\
    NoDup (map sub_serial out).
Proof.
  induction evs as [|ev evs IH]; intros st st' out Hwn; cbn [run].
  - intros [= <- <-]. split; [exact Hwn|]. split; [auto|].
    split; [intros sub Hin; inversion Hin | apply NoDup_nil; exact I].
  - destruct (ingest ev st) as [st1 out1] eqn:Hi.
    destruct (run evs st1) as [st2 out2] eqn:Hr. intros [= <- <-].
    destruct (ingest_numbered ev st st1 out1 Hwn Hi)
      as (Hwn1 & Hlive1 & Hlen1 & Hsub1).
    destruct (IH st1 st2 out2 Hwn1 Hr) as (Hwn2 & Hlive2 & Hsub2 & Hnd2).
    split; [exact Hwn2|]. split; [auto|]. split.
    + intros sub Hin. apply elem_of_app in Hin as [Hin|Hin].
      * apply (Hsub1 sub Hin).
      * apply Hlive1, Hsub2, Hin.
    + rewrite map_app. apply NoDup_app. split; [|split; [|exact Hnd2]].
      * destruct out1 as [|s1 [|s2 rest]]; cbn in *; try lia.
        -- apply NoDup_nil. exact I.
        -- apply NoDup_singleton.
      * intros s Hs1 Hs2.
        apply list_elem_of_fmap in Hs1 as (sub1 & -> & Hin1).
        apply list_elem_of_fmap in Hs2 as (sub2 & Heq & Hin2).
        destruct (Hsub1 sub1 Hin1) as (_ & Hdead & _).
        apply Hdead. rewrite Heq. apply Hsub2, Hin2.
Qed.

Lemma empty_well_numbered : well_numbered Window.empty.
Proof.
  split.
  - intros p w Hw. cbn in Hw. rewrite lookup_empty in Hw. discriminate.
  - intros p1 p2 w1 w2 Hw. cbn in Hw. rewrite lookup_empty in Hw. discriminate.
Qed.

Lemma heartbeat_on_empty now pid st :
  windows st !! pid = None ->
  ingest (heartbeat now pid) st = (st, []).
Proof.
  intros Hnone. unfold ingest, heartbeat. cbn [reading Sensor.patient_id
    Sensor.sensor_id Sensor.feature_value Sensor.timestamp received_at].
  unfold update_slot. rewrite bool_decide_eq_false_2 by (unfold N; lia).
  unfold is_complete, timed_out. rewrite Hnone. reflexivity.
Qed.

End SubmissionGate.

(** ** Slots are written once; windows are submitted once *)

Section Claims.
Import Window WindowFacts Scenario.

(** C4. In the Window Store (as the design document describes it) a slot
    of an unfinalized window that holds an observed value holds the same
    value after any further [update_slot] calls, for any patients, sensors
    and values, and a value written into a free slot is the one the slot
    holds after any later writes: the first value wins.  In the controller,
    the vector sent back carries every slot whose value was not 0 as it
    came, and the header fields other than the features unchanged. *)
Theorem observed_slot_never_overwritten :
  (forall st pid sid v us,
     holds pid sid v st -> slot pid sid (updates us st) = Some v) /\
  (forall st pid sid v ts now us,
     0 <= sid < N -> vacant pid sid st ->
     slot pid sid (updates (mkEvent now (Sensor.mk pid sid ts v) :: us) st)
       = Some v) /\
  (forall (scapy_Ether : list byte -> outcome Ether.t) raw_payload pkt p w,
     scapy_Ether raw_payload = Returned pkt ->
     get_Planter pkt = Some p ->
     exists p' ok w',
       parse_packet scapy_Ether raw_payload w = (Returned tt, w') /\
       new_packet_outs w w' = [(raw (set_Planter pkt p'), ok)] /\
       same_header p p' /\
       (forall i, feat p i <> 0 -> feat p' i = feat p i)).
Proof.
  split; [|split].
  - intros st pid sid v us H. apply holds_slot, updates_holds, H.
  - intros st pid sid v ts now us Hr Hv. apply holds_slot.
    unfold updates. cbn [fold_left reading Sensor.patient_id Sensor.sensor_id
      Sensor.feature_value Sensor.timestamp received_at].
    apply (updates_holds pid sid v us), update_slot_first; assumption.
  - intros scapy_Ether raw_payload pkt p w Hd Hp.
    destruct (parse_packet_summary scapy_Ether raw_payload pkt p w Hd Hp)
      as (p' & ok & w' & Hrun & Hout & _ & Hh & Hkeep & _).
    exists p', ok, w'. repeat split; try apply Hh; auto.
    intros i Hi. apply Hkeep. tauto.
Qed.

Lemma observed_slot_never_overwritten_witness :
  slot 7 2 (updates duplicate_run Window.empty) = Some 61 /\
  exists p' ok w',
    parse_packet Ether_dissect (frame_of patient_partial) (world0 (fun _ => 1))
      = (Returned tt, w') /\
    new_packet_outs (world0 (fun _ => 1)) w' =
      [(raw (set_Planter (Ether.mk 0x080027bcfcb5 0x000400000000 ETHERTYPE_PLANTER
                                   (PlanterLayer patient_partial [])) p'), ok)] /\
    same_header patient_partial p' /\
    (forall i, feat patient_partial i <> 0 -> feat p' i = feat patient_partial i).
Proof.
  split.
  - apply (proj1 (proj2 observed_slot_never_overwritten)
             Window.empty 7 2 61 5000 0 (tl duplicate_run)).
    + unfold N. lia.
    + vm_compute. exact I.
  - apply (proj2 (proj2 observed_slot_never_overwritten) Ether_dissect
             (frame_of patient_partial)
             (Ether.mk 0x080027bcfcb5 0x000400000000 ETHERTYPE_PLANTER
                       (PlanterLayer patient_partial []))
             patient_partial (world0 (fun _ => 1))).
    + vm_compute. reflexivity.
    + reflexivity.
Defined.

(** The duplicate-reading scenario: sensor 2 of patient 7 is written three
    times; the first value, 61, is the one retained. *)
Lemma duplicate_reading_first_value :
  slot 7 2 (updates duplicate_run Window.empty) = Some 61.
Proof. vm_compute. reflexivity. Qed.

Lemma ingest_at_most_one ev st : (length (snd (ingest ev st)) <= 1)%nat.
Proof.
  unfold ingest, finalize, snapshot_and_clear.
  repeat match goal with
         | |- context [if ?c then _ else _] => destruct c
         | |- context [match ?o with Some _ => _ | None => _ end] => destruct o
         end; cbn; lia.
Qed.

(** C2. In the Submission Gate (as the design document describes it),
    whatever the order in which readings and heartbeat ticks are ingested,
    no two submissions come from the same window; an ingested event yields
    at most one submission, after which the patient has no window, so that a
    heartbeat that follows submits nothing.  In the controller, a payload
    that dissects to a Planter header makes [parse_packet] return normally
    after exactly one [PacketOut] call. *)
Theorem one_submission_per_window :
  (forall evs st, well_numbered st ->
     NoDup (map sub_serial (snd (run evs st)))) /\
  (forall evs, NoDup (map sub_serial (snd (run evs Window.empty)))) /\
  (forall ev st, (length (snd (ingest ev st)) <= 1)%nat) /\
  (forall ev st st' sub now,
     well_numbered st -> ingest ev st = (st', [sub]) ->
     ingest (heartbeat now (sub_patient_id sub)) st' = (st', [])) /\
  (forall (scapy_Ether : list byte -> outcome Ether.t) raw_payload pkt p w,
     scapy_Ether raw_payload = Returned pkt ->
     get_Planter pkt = Some p ->
     exists payload ok,
       fst (parse_packet scapy_Ether raw_payload w) = Returned tt /\
       new_packet_outs w (snd (parse_packet scapy_Ether raw_payload w))
         = [(payload, ok)]).
Proof.
  assert (forall evs st, well_numbered st ->
            NoDup (map sub_serial (snd (run evs st)))) as Hnd.
  { intros evs st Hwn. destruct (run evs st) as [st' out] eqn:Hr.
    apply (run_numbered evs st st' out Hwn Hr). }
  split; [exact Hnd|]. split; [intros; apply Hnd, empty_well_numbered|].
  split; [apply ingest_at_most_one|]. split.
  - intros ev st st' sub now Hwn Hi.
    destruct (ingest_numbered ev st st' [sub] Hwn Hi) as (_ & _ & _ & Hsub).
    apply heartbeat_on_empty, (Hsub sub). left.
  - intros scapy_Ether raw_payload pkt p w Hd Hp.
    destruct (parse_packet_summary scapy_Ether raw_payload pkt p w Hd Hp)
      as (p' & ok & w' & Hrun & Hout & _).
    exists (raw (set_Planter pkt p')), ok. rewrite Hrun. auto.
Qed.

Lemma one_submission_per_window_witness :
  NoDup (map sub_serial (snd (run (timeout_run ++ completing_run) Window.empty))) /\
  exists payload ok,
    fst (parse_packet Ether_dissect (frame_of patient_1000) (world0 (fun _ => 1)))
      = Returned tt /\
    new_packet_outs (world0 (fun _ => 1))
      (snd (parse_packet Ether_dissect (frame_of patient_1000) (world0 (fun _ => 1))))
      = [(payload, ok)].
Proof.
  split.
  - apply (proj1 (proj2 one_submission_per_window)).
  - apply (proj2 (proj2 (proj2 (proj2 one_submission_per_window))) Ether_dissect
             (frame_of patient_1000)
             (Ether.mk 0x080027bcfcb5 0x000400000000 ETHERTYPE_PLANTER
                       (PlanterLayer patient_1000 []))
             patient_1000 (world0 (fun _ => 1))).
    + vm_compute. reflexivity.
    + reflexivity.
Defined.

(** The timeout scenario and the completing-reading scenario each end with
    exactly one submission. *)
Lemma scenarios_submit_once :
  map (fun s => (sub_patient_id s, sub_forced s, sub_vector s))
      (snd (run timeout_run Window.empty))
    = [(1000, true, [100; 101; 102; 103; 104; 105; 0; 0; 0; 0])] /\
  map (fun s => (sub_patient_id s, sub_forced s, sub_vector s))
      (snd (run completing_run Window.empty))
    = [(2000, false, [100; 101; 102; 103; 104; 105; 106; 107; 108; 109])].
Proof. split; vm_compute; reflexivity. Qed.

End Claims.

(** * The packet codec *)

Lemma Z_of_byte_of_Z v : Z_of_byte (byte_of_Z v) = v mod 2^8.
Proof.
  unfold Z_of_byte, byte_of_Z.
  assert (0 <= Z.land v 255 < 256) as Hb.
  { change 255 with (Z.ones 8). rewrite Z.land_ones by lia.
    apply Z.mod_pos_bound. lia. }
  assert (Z.land v 255 = v mod 2^8) as Hm.
  { change 255 with (Z.ones 8). apply Z.land_ones. lia. }
  destruct (Byte.of_N (Z.to_N (Z.land v 255))) as [b|] eqn:Hof.
  - apply Byte.to_of_N in Hof. rewrite Hof, Z2N.id by lia. exact Hm.
  - apply Byte.of_N_None_iff in Hof. lia.
Qed.

Lemma length_be_encode n v : length (be_encode n v) = n.
Proof. induction n as [|k IH]; cbn; [reflexivity | rewrite IH; reflexivity]. Qed.

Lemma be_decode_acc bs : forall acc,
  fold_left (fun a b => a * 256 + Z_of_byte b) bs acc
  = acc * 256 ^ Z.of_nat (length bs) + be_decode bs.
Proof.
  unfold be_decode.
  induction bs as [|b bs IH]; intros acc.
  - cbn. lia.
  - cbn [fold_left length]. rewrite IH, (IH (0 * 256 + Z_of_byte b)).
    rewrite Nat2Z.inj_succ, Z.pow_succ_r by lia. lia.
Qed.

Lemma be_roundtrip n v : be_decode (be_encode n v) = v mod 2 ^ (8 * Z.of_nat n).
Proof.
  induction n as [|k IH].
  - cbn. rewrite Z.mod_1_r. reflexivity.
  - cbn [be_encode]. unfold be_decode. cbn [fold_left].
    rewrite be_decode_acc, IH, length_be_encode, Z_of_byte_of_Z.
    rewrite Z.shiftr_div_pow2 by lia.
    replace (8 * Z.of_nat (S k)) with (8 * Z.of_nat k + 8) by lia.
    rewrite Z.pow_add_r by lia.
    rewrite (Z.rem_mul_r v (2 ^ (8 * Z.of_nat k)) (2 ^ 8)) by lia.
    replace (256 ^ Z.of_nat k) with (2 ^ (8 * Z.of_nat k)).
    + lia.
    + change 256 with (2 ^ 8). rewrite <- Z.pow_mul_r by lia. reflexivity.
Qed.

Lemma be_roundtrip_small n v :
  0 <= v < 2 ^ (8 * Z.of_nat n) -> be_decode (be_encode n v) = v.
Proof. intros H. rewrite be_roundtrip. apply Z.mod_small, H. Qed.

(** The same, on the byte lists that [be_encode] unfolds to for the four
    field widths of the headers. *)
Lemma be_roundtrip_1 v : 0 <= v < 2^8 ->
  be_decode [byte_of_Z (Z.shiftr v (8 * Z.of_nat 0))] = v.
Proof. exact (be_roundtrip_small 1 v). Qed.

Lemma be_roundtrip_2 v : 0 <= v < 2^16 ->
  be_decode [byte_of_Z (Z.shiftr v (8 * Z.of_nat 1));
             byte_of_Z (Z.shiftr v (8 * Z.of_nat 0))] = v.
Proof. exact (be_roundtrip_small 2 v). Qed.

Lemma be_roundtrip_4 v : 0 <= v < 2^32 ->
  be_decode [byte_of_Z (Z.shiftr v (8 * Z.of_nat 3));
             byte_of_Z (Z.shiftr v (8 * Z.of_nat 2));
             byte_of_Z (Z.shiftr v (8 * Z.of_nat 1));
             byte_of_Z (Z.shiftr v (8 * Z.of_nat 0))] = v.
Proof. exact (be_roundtrip_small 4 v). Qed.

Lemma be_roundtrip_6 v : 0 <= v < 2^48 ->
  be_decode [byte_of_Z (Z.shiftr v (8 * Z.of_nat 5));
             byte_of_Z (Z.shiftr v (8 * Z.of_nat 4));
             byte_of_Z (Z.shiftr v (8 * Z.of_nat 3));
             byte_of_Z (Z.shiftr v (8 * Z.of_nat 2));
             byte_of_Z (Z.shiftr v (8 * Z.of_nat 1));
             byte_of_Z (Z.shiftr v (8 * Z.of_nat 0))] = v.
Proof. exact (be_roundtrip_small 6 v). Qed.

Ltac codec_cbn :=
  cbn [Planter.build Planter.dissect Sensor.build Sensor.dissect Planter.slice
       Planter.size Sensor.size be_encode app firstn skipn take drop length
       Planter.P Planter.Four Planter.version Planter.type Planter.patient_id
       Planter.timestamp Planter.feature0 Planter.feature1 Planter.feature2
       Planter.feature3 Planter.feature4 Planter.feature5 Planter.feature6
       Planter.feature7 Planter.feature8 Planter.feature9 Planter.result
       Sensor.patient_id Sensor.sensor_id Sensor.timestamp Sensor.feature_value].

Ltac codec_unfold :=
  codec_cbn; unfold Planter.dissect, Sensor.dissect, Planter.slice; codec_cbn.

Ltac codec_roundtrip :=
  rewrite ?be_roundtrip_6, ?be_roundtrip_4, ?be_roundtrip_2, ?be_roundtrip_1
    by assumption.

Lemma length_Sensor_build s : length (Sensor.build s) = Sensor.size.
Proof.
  unfold Sensor.build. rewrite !length_app, !length_be_encode. reflexivity.
Qed.

Lemma length_Planter_build p : length (Planter.build p) = Planter.size.
Proof.
  unfold Planter.build. rewrite !length_app, !length_be_encode. reflexivity.
Qed.

Lemma Sensor_dissect_build s rest :
  sensor_wf s -> Sensor.dissect (Sensor.build s ++ rest) = s.
Proof.
  intros (H1 & H2 & H3 & H4). destruct s as [pid sid ts v]. cbn in H1, H2, H3, H4.
  codec_unfold. codec_roundtrip. reflexivity.
Qed.

(** X2. A Sensor header is 16 bytes whatever its fields hold, and
    dissecting the bytes built from a header whose fields fit their widths
    gives the header back, whatever bytes follow. *)
Theorem Sensor_build_dissect (s : Sensor.t) (rest : list byte) :
  sensor_wf s ->
  length (Sensor.build s) = Sensor.size /\
  Sensor.dissect (Sensor.build s ++ rest) = s.
Proof.
  intros Hwf. split.
  - apply length_Sensor_build.
  - apply Sensor_dissect_build. exact Hwf.
Qed.

Lemma Planter_dissect_build p rest :
  planter_wf p -> Planter.dissect (Planter.build p ++ rest) = p.
Proof.
  unfold planter_wf. destruct p. cbn [Planter.P Planter.Four Planter.version
    Planter.type Planter.patient_id Planter.timestamp Planter.feature0
    Planter.feature1 Planter.feature2 Planter.feature3 Planter.feature4
    Planter.feature5 Planter.feature6 Planter.feature7 Planter.feature8
    Planter.feature9 Planter.result].
  intros (? & ? & ? & ? & ? & ? & ? & ? & ? & ? & ? & ? & ? & ? & ? & ? & ?).
  codec_unfold. codec_roundtrip. reflexivity.
Qed.

(** X1. A Planter header is 38 bytes whatever its fields hold, and
    dissecting the bytes built from a header whose fields fit their widths
    gives the header back, whatever bytes follow. *)
Theorem Planter_build_dissect (p : Planter.t) (rest : list byte) :
  planter_wf p ->
  length (Planter.build p) = Planter.size /\
  Planter.dissect (Planter.build p ++ rest) = p.
Proof.
  intros Hwf. split.
  - apply length_Planter_build.
  - apply Planter_dissect_build. exact Hwf.
Qed.

Ltac frame_unfold :=
  unfold Ether_dissect, raw, build_layer, Planter.slice;
  cbn [Ether.dst Ether.src Ether.type Ether.payload be_encode
       firstn skipn take drop app length Nat.ltb Nat.leb].

Lemma Ether_dissect_raw (pkt : Ether.t) :
  frame_wf pkt -> Ether_dissect (raw pkt) = Returned pkt.
Proof.
  destruct pkt as [dst src type [p rest | s rest | load]];
    unfold frame_wf, mac_wf; cbn [Ether.dst Ether.src Ether.type Ether.payload].
  - intros (Hd & Hs & -> & Hp).
    pose proof (length_Planter_build p) as Hlen.
    pose proof (Planter_dissect_build p rest Hp) as Hdis.
    frame_unfold.
    rewrite be_roundtrip_6, be_roundtrip_6, be_roundtrip_2
      by (assumption || (unfold ETHERTYPE_PLANTER; lia)).
    change (ETHERTYPE_PLANTER =? ETHERTYPE_PLANTER) with true.
    cbn [andb]. rewrite !drop_0.
    rewrite length_app, Hlen.
    replace (Planter.size <=? Planter.size + length rest)%nat with true
      by (symmetry; apply Nat.leb_le; lia).
    rewrite Hdis, drop_app_length'; [reflexivity | exact Hlen].
  - intros (Hd & Hs & -> & Hp).
    pose proof (length_Sensor_build s) as Hlen.
    pose proof (Sensor_dissect_build s rest Hp) as Hdis.
    frame_unfold.
    rewrite be_roundtrip_6, be_roundtrip_6, be_roundtrip_2
      by (assumption || (unfold ETHERTYPE_SENSOR; lia)).
    change (ETHERTYPE_SENSOR =? ETHERTYPE_PLANTER) with false.
    change (ETHERTYPE_SENSOR =? ETHERTYPE_SENSOR) with true.
    cbn [andb]. rewrite !drop_0.
    rewrite length_app, Hlen.
    replace (Sensor.size <=? Sensor.size + length rest)%nat with true
      by (symmetry; apply Nat.leb_le; lia).
    rewrite Hdis, drop_app_length'; [reflexivity | exact Hlen].
  - intros (Hd & Hs & Ht & Hn1 & Hn2).
    frame_unfold.
    rewrite be_roundtrip_6, be_roundtrip_6, be_roundtrip_2 by assumption.
    apply Z.eqb_neq in Hn1, Hn2. rewrite Hn1, Hn2, ?drop_0. reflexivity.
Qed.


Lemma Sensor_build_dissect_witness :
  length (Sensor.build (Sensor.mk 1000 3 5000 120)) = Sensor.size /\
  Sensor.dissect (Sensor.build (Sensor.mk 1000 3 5000 120) ++ [x00; x01])
    = Sensor.mk 1000 3 5000 120.
Proof.
  apply (Sensor_build_dissect (Sensor.mk 1000 3 5000 120) [x00; x01]).
  unfold sensor_wf. simpl. lia.
Defined.

Lemma Planter_build_dissect_witness :
  length (Planter.build patient_partial) = Planter.size /\
  Planter.dissect (Planter.build patient_partial ++ [xff]) = patient_partial.
Proof.
  apply (Planter_build_dissect patient_partial [xff]).
  unfold planter_wf. simpl. lia.
Defined.


(** * More on the packet processor *)

Lemma impute_value_numeric_rng x w v w' :
  0 <= x < 5 ->
  impute_value x w = (Returned v, w') ->
  rng w' = random.mk (random.draws (rng w)) (S (random.pos (rng w))).
Proof.
  intros Hx.
  destruct impute_value_table as (E0 & E1 & E2 & E3 & E4 & _).
  assert (x = 0 \/ x = 1 \/ x = 2 \/ x = 3 \/ x = 4) as Hc by lia.
  destruct Hc as [-> | [-> | [-> | [-> | ->]]]];
    rewrite ?E0, ?E1, ?E2, ?E3, ?E4, randint_run; intros [= _ <-]; reflexivity.
Qed.

Lemma impute_loop_trace t pid xs :
  Forall (fun x => 0 <= x < 10) xs -> NoDup xs ->
  forall p b w p' b' w',
    for_each xs (impute_slot t pid) (p, b) w = (Returned (p', b'), w') ->
    stdout w' =
      stdout w ++ imputing_msgs t pid p' (filter (fun i => i < 5 /\ feat p i = 0) xs) /\
    rng w' =
      random.mk (random.draws (rng w))
                (random.pos (rng w) +
                 length (filter (fun i => i < 5 /\ feat p i = 0) xs)).
Proof.
  induction xs as [|x xs IH]; intros Hr Hnd p b w p' b' w'.
  - cbn. intros [= <- <- <-]. rewrite app_nil_r, Nat.add_0_r.
    destruct (rng w). auto.
  - apply Forall_cons in Hr as [Hx Hr]. apply NoDup_cons in Hnd as [Hnx Hnd].
    cbn [for_each]. unfold bind at 1.
    destruct (decide (x < 5 /\ feat p x = 0)) as [[Hlt H0]|Hno].
    + destruct (impute_slot_fill t pid p b x w ltac:(lia) H0)
        as (v & g & Hv & Hval & ->).
      pose proof (impute_value_numeric_rng x w v _ ltac:(lia) Hval) as Hg.
      cbn [rng] in Hg. subst g.
      set (p1 := Planter.setattr p x v). intros Hrun.
      destruct (IH Hr Hnd _ _ _ _ _ _ Hrun) as [Hout Hrng].
      destruct (impute_loop t pid xs Hr Hnd p1 true
                  (mkWorld (random.mk (random.draws (rng w)) (S (random.pos (rng w))))
                           (csv_log w ++ [mkRow t pid x 0 v])
                           (stdout w ++ [Imputing t x pid 0 v])
                           (switch_conn w) (clock w)))
        as (q & c & u & Hrun' & _ & _ & _ & Hkeep & _).
      rewrite Hrun in Hrun'. injection Hrun' as <- <- <-.
      assert (forall i, i <> x -> feat p1 i = feat p i) as Hp1
          by (intros; apply feat_setattr_ne; assumption).
      assert (feat p' x = v) as Hpx.
      { rewrite Hkeep by assumption. apply feat_setattr_eq. lia. }
      assert (filter (fun i => i < 5 /\ feat p1 i = 0) xs =
              filter (fun i => i < 5 /\ feat p i = 0) xs) as Hf.
      { apply filter_ext_elem. intros i Hi. rewrite Hp1; [tauto|].
        intros ->. contradiction. }
      rewrite Hf in Hout, Hrng. cbn [stdout rng random.draws random.pos] in Hout, Hrng.
      rewrite filter_cons_True by auto. unfold imputing_msgs in *.
      cbn [map length]. rewrite Hpx, Hout, Hrng, <- app_assoc.
      split; [reflexivity|]. f_equal. lia.
    + rewrite (impute_slot_skip t pid p b x w Hx Hno). intros Hrun.
      rewrite filter_cons_False by exact Hno. eapply IH; eassumption.
Qed.

Lemma impute_missing_trace t pid p w p' b w' :
  impute_missing t pid p w = (Returned (p', b), w') ->
  stdout w' = stdout w ++ imputing_msgs t pid p' (missing_slots p) /\
  rng w' = random.mk (random.draws (rng w))
                     (random.pos (rng w) + length (missing_slots p)).
Proof.
  unfold impute_missing, missing_slots. apply impute_loop_trace.
  - apply Forall_forall. intros x Hx. apply range_10_elem, Hx.
  - apply range_10_NoDup.
Qed.

(** The world [parse_packet] leaves behind for a payload with a Planter
    header, in full. *)
Lemma parse_packet_exact scapy_Ether raw_payload pkt p w :
  scapy_Ether raw_payload = Returned pkt ->
  get_Planter pkt = Some p ->
  exists p' w1,
    impute_missing (clock w) (Planter.patient_id p) p w
      = (Returned (p', bool_decide (missing_slots p <> [])), w1) /\
    switch_conn w1 = switch_conn w /\ clock w1 = clock w /\
    parse_packet scapy_Ether raw_payload w =
      (Returned tt,
       let c := switch_conn w in
       let payload := raw (set_Planter pkt p') in
       let failure := fails c (length (packet_outs c)) payload in
       mkWorld (rng w1) (csv_log w1)
         (stdout w1 ++
          [if bool_decide (missing_slots p <> [])
           then ModifiedPlanter (clock w) (Planter.patient_id p) p'
           else CompletePlanter (clock w) (Planter.patient_id p) p';
           SendingPacketOut (clock w) CPU_PORT] ++
          match failure with Some e => [ErrorParsing e] | None => [] end)
         (mkConn (packet_outs c ++
                    [(payload, match failure with None => true | Some _ => false end)])
                 (fails c) (inbound c))
         (clock w)).
Proof.
  intros Hd Hp.
  destruct (impute_missing_run (clock w) (Planter.patient_id p) p w)
    as (p' & imputed & w1 & Hrun & Hc & Hk & _ & _ & _ & _ & ->).
  exists p', w1. split; [exact Hrun|]. split; [exact Hc|]. split; [exact Hk|].
  unfold parse_packet, try_except, parse_packet_body.
  unfold bind at 1, dissect_Ether. rewrite Hd, Hp.
  unfold bind at 1, now. unfold bind at 1. rewrite Hrun.
  unfold bind at 1, print at 1. unfold bind at 1, print at 1.
  unfold PacketOut. cbn [rng csv_log stdout switch_conn clock]. rewrite Hc.
  destruct (fails (switch_conn w) (length (packet_outs (switch_conn w)))
                  (raw (set_Planter pkt p'))) as [e|];
    unfold print; cbn [rng csv_log stdout switch_conn clock];
    rewrite ?Hk, <- ?app_assoc; reflexivity.
Qed.

(** X4. Whatever the generator holds, a payload with a Planter header
    advances it by exactly one draw per missing slot, and not at all when
    the vector is complete. *)
Theorem parse_packet_draws_one_per_missing_slot
    (scapy_Ether : list byte -> outcome Ether.t)
    (raw_payload : list byte) (pkt : Ether.t) (p : Planter.t) (w : World) :
  scapy_Ether raw_payload = Returned pkt ->
  get_Planter pkt = Some p ->
  let w' := snd (parse_packet scapy_Ether raw_payload w) in
  rng w' = random.mk (random.draws (rng w))
                     (random.pos (rng w) + length (missing_slots p)) /\
  (missing_slots p = [] -> rng w' = rng w) /\
  (length (missing_slots p) <= 5)%nat.
Proof.
  intros Hd Hp.
  destruct (parse_packet_exact scapy_Ether raw_payload pkt p w Hd Hp)
    as (p' & w1 & Hloop & _ & _ & Hrun).
  destruct (impute_missing_trace _ _ _ _ _ _ _ Hloop) as [_ Hrng].
  cbv zeta. rewrite Hrun. cbn [snd rng]. split; [exact Hrng|]. split.
  - intros Hnone. rewrite Hrng, Hnone. cbn [length]. rewrite Nat.add_0_r.
    destruct (rng w). reflexivity.
  - unfold missing_slots.
    assert (filter (fun i => i < 5 /\ feat p i = 0) (range 10)
            = filter (fun i => i < 5 /\ feat p i = 0) [0; 1; 2; 3; 4]) as ->.
    { rewrite range_10.
      change [0; 1; 2; 3; 4; 5; 6; 7; 8; 9] with ([0; 1; 2; 3; 4] ++ [5; 6; 7; 8; 9]).
      rewrite filter_app.
      replace (filter (fun i => i < 5 /\ feat p i = 0) [5; 6; 7; 8; 9]) with (@nil Z).
      - apply app_nil_r.
      - symmetry. repeat (rewrite filter_cons_False by lia). reflexivity. }
    apply (length_filter _ [0; 1; 2; 3; 4]).
Qed.

Lemma parse_packet_draws_one_per_missing_slot_witness :
  rng (snd (parse_packet Ether_dissect (frame_of patient_partial)
                         (world0 (fun n => Z.of_nat n))))
  = random.mk (fun n => Z.of_nat n) 2.
Proof.
  apply (parse_packet_draws_one_per_missing_slot Ether_dissect
           (frame_of patient_partial)
           (Ether.mk 0x080027bcfcb5 0x000400000000 ETHERTYPE_PLANTER
                     (PlanterLayer patient_partial []))
           patient_partial (world0 (fun n => Z.of_nat n))).
  - vm_compute. reflexivity.
  - reflexivity.
Defined.

(** X5. What [parse_packet] prints for a payload with a Planter header: one
    "Imputing" line per missing slot, in slot order, with the value written;
    then "Modified" if at least one slot was imputed and "Received complete"
    otherwise; then the PacketOut notice with [CPU_PORT]; and, only if the
    send raised, the error. *)
Theorem parse_packet_printed
    (scapy_Ether : list byte -> outcome Ether.t)
    (raw_payload : list byte) (pkt : Ether.t) (p : Planter.t) (w : World) :
  scapy_Ether raw_payload = Returned pkt ->
  get_Planter pkt = Some p ->
  exists p' ok w',
    parse_packet scapy_Ether raw_payload w = (Returned tt, w') /\
    new_packet_outs w w' = [(raw (set_Planter pkt p'), ok)] /\
    exists tail,
      printed w w' =
        imputing_msgs (clock w) (Planter.patient_id p) p' (missing_slots p) ++
        [match missing_slots p with
         | [] => CompletePlanter (clock w) (Planter.patient_id p) p'
         | _ :: _ => ModifiedPlanter (clock w) (Planter.patient_id p) p'
         end;
         SendingPacketOut (clock w) CPU_PORT] ++ tail /\
      ((ok = true /\ tail = []) \/ (ok = false /\ exists e, tail = [ErrorParsing e])).
Proof.
  intros Hd Hp.
  destruct (parse_packet_exact scapy_Ether raw_payload pkt p w Hd Hp)
    as (p' & w1 & Hloop & _ & _ & Hrun).
  destruct (impute_missing_trace _ _ _ _ _ _ _ Hloop) as [Hout _].
  eexists p', _, _. split; [exact Hrun|].
  split; [apply new_packet_outs_app; reflexivity|].
  exists (match fails (switch_conn w) (length (packet_outs (switch_conn w)))
                      (raw (set_Planter pkt p'))
          with Some e => [ErrorParsing e] | None => [] end).
  split.
  - apply printed_app. cbn [stdout]. rewrite Hout, <- app_assoc.
    destruct (missing_slots p) as [|i l].
    + rewrite bool_decide_eq_false_2 by (intros H; apply H; reflexivity).
      reflexivity.
    + rewrite bool_decide_eq_true_2 by discriminate. reflexivity.
  - destruct (fails _ _ _) as [e|]; [right | left]; eauto.
Qed.

Lemma parse_packet_printed_witness :
  exists p' ok w',
    parse_packet Ether_dissect (frame_of patient_1000) (world0 (fun _ => 0))
      = (Returned tt, w') /\
    new_packet_outs (world0 (fun _ => 0)) w' =
      [(raw (set_Planter (Ether.mk 0x080027bcfcb5 0x000400000000 ETHERTYPE_PLANTER
                                   (PlanterLayer patient_1000 [])) p'), ok)] /\
    exists tail,
      printed (world0 (fun _ => 0)) w' =
        imputing_msgs 0 1000 p' (missing_slots patient_1000) ++
        [match missing_slots patient_1000 with
         | [] => CompletePlanter 0 1000 p'
         | _ :: _ => ModifiedPlanter 0 1000 p'
         end;
         SendingPacketOut 0 CPU_PORT] ++ tail /\
      ((ok = true /\ tail = []) \/ (ok = false /\ exists e, tail = [ErrorParsing e])).
Proof.
  apply (parse_packet_printed Ether_dissect (frame_of patient_1000)
           (Ether.mk 0x080027bcfcb5 0x000400000000 ETHERTYPE_PLANTER
                     (PlanterLayer patient_1000 []))
           patient_1000 (world0 (fun _ => 0))).
  - vm_compute. reflexivity.
  - reflexivity.
Defined.

(** X6. When the switch connection fails the [PacketOut] call,
    [parse_packet] still returns normally: the call was made once and is
    not retried, the error is the last thing printed, and the rows written to
    the audit log for the imputed slots stay there although the vector was
    not delivered. *)
Theorem parse_packet_send_failure
    (scapy_Ether : list byte -> outcome Ether.t)
    (raw_payload : list byte) (pkt : Ether.t) (p : Planter.t) (w : World)
    (e : Exn) :
  scapy_Ether raw_payload = Returned pkt ->
  get_Planter pkt = Some p ->
  (forall payload,
     fails (switch_conn w) (length (packet_outs (switch_conn w))) payload = Some e) ->
  exists p' w',
    parse_packet scapy_Ether raw_payload w = (Returned tt, w') /\
    new_packet_outs w w' = [(raw (set_Planter pkt p'), false)] /\
    last (printed w w') = Some (ErrorParsing e) /\
    audit_rows w w' =
      map (fun i => mkRow (clock w) (Planter.patient_id p) i 0 (feat p' i))
          (missing_slots p) /\
    length (audit_rows w w') = length (missing_slots p).
Proof.
  intros Hd Hp Hfail.
  destruct (parse_packet_exact scapy_Ether raw_payload pkt p w Hd Hp)
    as (p' & w1 & Hloop & _ & _ & Hrun).
  destruct (impute_missing_trace _ _ _ _ _ _ _ Hloop) as [Hout _].
  destruct (impute_missing_run (clock w) (Planter.patient_id p) p w)
    as (q & b & w2 & Hloop' & _ & _ & _ & _ & _ & Hrows & _).
  rewrite Hloop in Hloop'. injection Hloop' as <- _ <-.
  cbv zeta in Hrun. rewrite Hfail in Hrun.
  eexists p', _. split; [exact Hrun|].
  split; [apply new_packet_outs_app; reflexivity|].
  assert (audit_rows w
            (mkWorld (rng w1) (csv_log w1)
               (stdout w1 ++
                [if bool_decide (missing_slots p <> [])
                 then ModifiedPlanter (clock w) (Planter.patient_id p) p'
                 else CompletePlanter (clock w) (Planter.patient_id p) p';
                 SendingPacketOut (clock w) CPU_PORT] ++ [ErrorParsing e])
               (mkConn (packet_outs (switch_conn w) ++
                          [(raw (set_Planter pkt p'), false)])
                       (fails (switch_conn w)) (inbound (switch_conn w)))
               (clock w))
          = map (fun i => mkRow (clock w) (Planter.patient_id p) i 0 (feat p' i))
                (missing_slots p)) as Hr
      by (apply audit_rows_app; exact Hrows).
  split; [|split; [exact Hr | rewrite Hr; apply length_map]].
  rewrite (printed_app _ _
             ((imputing_msgs (clock w) (Planter.patient_id p) p' (missing_slots p) ++
               [if bool_decide (missing_slots p <> [])
                then ModifiedPlanter (clock w) (Planter.patient_id p) p'
                else CompletePlanter (clock w) (Planter.patient_id p) p';
                SendingPacketOut (clock w) CPU_PORT]) ++ [ErrorParsing e])).
  - apply last_snoc.
  - cbn [stdout]. rewrite Hout, <- !app_assoc. reflexivity.
Qed.

Lemma parse_packet_send_failure_witness :
  exists p' w',
    parse_packet Ether_dissect (frame_of patient_partial)
      (mkWorld (random.mk (fun _ => 0) 0) [] []
               (mkConn [] (fun _ _ => Some (RpcError 14)) []) 0)
      = (Returned tt, w') /\
    new_packet_outs
      (mkWorld (random.mk (fun _ => 0) 0) [] []
               (mkConn [] (fun _ _ => Some (RpcError 14)) []) 0) w'
      = [(raw (set_Planter (Ether.mk 0x080027bcfcb5 0x000400000000 ETHERTYPE_PLANTER
                                     (PlanterLayer patient_partial [])) p'), false)] /\
    last (printed
            (mkWorld (random.mk (fun _ => 0) 0) [] []
                     (mkConn [] (fun _ _ => Some (RpcError 14)) []) 0) w')
      = Some (ErrorParsing (RpcError 14)) /\
    audit_rows
      (mkWorld (random.mk (fun _ => 0) 0) [] []
               (mkConn [] (fun _ _ => Some (RpcError 14)) []) 0) w'
      = map (fun i => mkRow 0 42 i 0 (feat p' i)) (missing_slots patient_partial) /\
    length (audit_rows
              (mkWorld (random.mk (fun _ => 0) 0) [] []
                       (mkConn [] (fun _ _ => Some (RpcError 14)) []) 0) w')
      = length (missing_slots patient_partial).
Proof.
  apply (parse_packet_send_failure Ether_dissect (frame_of patient_partial)
           (Ether.mk 0x080027bcfcb5 0x000400000000 ETHERTYPE_PLANTER
                     (PlanterLayer patient_partial []))
           patient_partial
           (mkWorld (random.mk (fun _ => 0) 0) [] []
                    (mkConn [] (fun _ _ => Some (RpcError 14)) []) 0)
           (RpcError 14)).
  - vm_compute. reflexivity.
  - reflexivity.
  - intros payload. reflexivity.
Defined.

Lemma impute_loop_nothing_missing t pid xs p b w :
  (forall x, x ∈ xs -> 0 <= x < 10 /\ ~ (x < 5 /\ feat p x = 0)) ->
  for_each xs (impute_slot t pid) (p, b) w = (Returned (p, b), w).
Proof.
  induction xs as [|x xs IH]; intros Hall; [reflexivity|].
  cbn [for_each]. unfold bind.
  destruct (Hall x ltac:(left)) as [Hx Hno].
  rewrite (impute_slot_skip t pid p b x w Hx Hno).
  apply IH. intros y Hy. apply Hall. right. exact Hy.
Qed.

(** X7. The vector the imputation loop returns has no missing slot left:
    none of the slots 0-4 carries 0.  Running the loop on it again returns
    it unchanged with [imputed] false, and logs, prints and draws nothing. *)
Theorem impute_missing_idempotent (t pid : Z) (p : Planter.t) (w : World) :
  exists p' imputed w',
    impute_missing t pid p w = (Returned (p', imputed), w') /\
    (forall i, 0 <= i < 5 -> feat p' i <> 0) /\
    missing_slots p' = [] /\
    (forall t2 pid2 w2,
       impute_missing t2 pid2 p' w2 = (Returned (p', false), w2)).
Proof.
  destruct (impute_missing_run t pid p w)
    as (p' & imputed & w' & Hrun & _ & _ & _ & Hkeep & Hin & _).
  assert (forall i, 0 <= i < 5 -> feat p' i <> 0) as Hnz.
  { intros i Hi. destruct (decide (feat p i = 0)) as [H0|Hn].
    - pose proof (in_sensor_range_pos _ _ (Hin i Hi H0)). lia.
    - rewrite Hkeep by tauto. exact Hn. }
  exists p', imputed, w'. split; [exact Hrun|]. split; [exact Hnz|]. split.
  - unfold missing_slots.
    destruct (filter _ _) as [|i l] eqn:Hf; [reflexivity|].
    assert (i ∈ filter (fun i => i < 5 /\ feat p' i = 0) (range 10)) as Hi
        by (rewrite Hf; left).
    apply list_elem_of_filter in Hi as [[Hlt H0] Hr%range_10_elem].
    exfalso. apply (Hnz i); [lia | exact H0].
  - intros t2 pid2 w2. unfold impute_missing.
    apply impute_loop_nothing_missing.
    intros x Hx%range_10_elem. split; [exact Hx|].
    intros [Hlt H0]. apply (Hnz x); [lia | exact H0].
Qed.

Lemma planter_wf_imputed p p' :
  planter_wf p -> same_header p p' ->
  (forall i, ~ (i < 5 /\ feat p i = 0) -> feat p' i = feat p i) ->
  (forall i, 0 <= i < 5 -> feat p i = 0 -> in_sensor_range i (feat p' i)) ->
  planter_wf p'.
Proof.
  intros Hwf (H1 & H2 & H3 & H4 & H5 & H6 & H7) Hkeep Hin.
  assert (forall i, 0 <= i < 10 -> 0 <= feat p i < 2^16 ->
                    0 <= feat p' i < 2^16) as Hf.
  { intros i Hi Hr. destruct (decide (i < 5 /\ feat p i = 0)) as [[Hlt H0]|Hno].
    - pose proof (Hin i ltac:(lia) H0) as Hs. unfold in_sensor_range in Hs. lia.
    - rewrite Hkeep by exact Hno. exact Hr. }
  unfold planter_wf in *. rewrite H1, H2, H3, H4, H5, H6, H7.
  destruct Hwf as (? & ? & ? & ? & ? & ? & ? & ? & ? & ? & ? & ? & ? & ? & ? & ? & ?).
  pose proof (Hf 0 ltac:(lia) ltac:(assumption)).
  pose proof (Hf 1 ltac:(lia) ltac:(assumption)).
  pose proof (Hf 2 ltac:(lia) ltac:(assumption)).
  pose proof (Hf 3 ltac:(lia) ltac:(assumption)).
  pose proof (Hf 4 ltac:(lia) ltac:(assumption)).
  pose proof (Hf 5 ltac:(lia) ltac:(assumption)).
  pose proof (Hf 6 ltac:(lia) ltac:(assumption)).
  pose proof (Hf 7 ltac:(lia) ltac:(assumption)).
  pose proof (Hf 8 ltac:(lia) ltac:(assumption)).
  pose proof (Hf 9 ltac:(lia) ltac:(assumption)).
  repeat (split; [assumption|]). assumption.
Qed.

Lemma length_raw_planter dst src type p rest :
  length (raw (Ether.mk dst src type (PlanterLayer p rest)))
  = (14 + Planter.size + length rest)%nat.
Proof.
  unfold raw, build_layer. cbn [Ether.dst Ether.src Ether.type Ether.payload].
  rewrite !length_app, !length_be_encode, length_Planter_build. lia.
Qed.

(** X8. On the wire: for a well-formed frame with a Planter header,
    [parse_packet] answers with one frame of the same length that dissects
    to the same Ethernet header and trailing bytes around the imputed
    vector; the imputed vector is well-formed again (every value fits its
    16-bit field), none of its slots 0-4 is 0, and its slots 5-9 and header
    fields are those received. *)
Theorem parse_packet_on_the_wire
    (dst src : Z) (p : Planter.t) (rest : list byte) (w : World) :
  mac_wf dst -> mac_wf src -> planter_wf p ->
  exists p' ok payload w',
    parse_packet Ether_dissect
      (raw (Ether.mk dst src ETHERTYPE_PLANTER (PlanterLayer p rest))) w
      = (Returned tt, w') /\
    new_packet_outs w w' = [(payload, ok)] /\
    length payload
      = length (raw (Ether.mk dst src ETHERTYPE_PLANTER (PlanterLayer p rest))) /\
    Ether_dissect payload
      = Returned (Ether.mk dst src ETHERTYPE_PLANTER (PlanterLayer p' rest)) /\
    planter_wf p' /\ same_header p p' /\
    (forall i, 0 <= i < 5 -> feat p' i <> 0) /\
    (forall i, 5 <= i -> feat p' i = feat p i).
Proof.
  intros Hd Hs Hwf.
  set (frame := Ether.mk dst src ETHERTYPE_PLANTER (PlanterLayer p rest)).
  assert (Ether_dissect (raw frame) = Returned frame) as Hdis.
  { apply Ether_dissect_raw.
    split; [exact Hd | split; [exact Hs | split; [reflexivity | exact Hwf]]]. }
  destruct (parse_packet_summary Ether_dissect (raw frame) frame p w Hdis eq_refl)
    as (p' & ok & w' & Hrun & Hout & _ & Hh & Hkeep & Hin).
  pose proof (planter_wf_imputed p p' Hwf Hh Hkeep Hin) as Hwf'.
  exists p', ok, (raw (set_Planter frame p')), w'.
  split; [exact Hrun|]. split; [exact Hout|].
  unfold frame, set_Planter. cbn [Ether.dst Ether.src Ether.type Ether.payload].
  split; [rewrite !length_raw_planter; reflexivity|].
  split.
  { apply Ether_dissect_raw.
    split; [exact Hd | split; [exact Hs | split; [reflexivity | exact Hwf']]]. }
  split; [exact Hwf'|]. split; [exact Hh|]. split.
  - intros i Hi. destruct (decide (feat p i = 0)) as [H0|Hn].
    + pose proof (in_sensor_range_pos _ _ (Hin i Hi H0)). lia.
    + rewrite Hkeep by tauto. exact Hn.
  - intros i Hi. apply Hkeep. lia.
Qed.

Lemma parse_packet_on_the_wire_witness :
  exists p' ok payload w',
    parse_packet Ether_dissect
      (raw (Ether.mk 0x080027bcfcb5 0x000400000000 ETHERTYPE_PLANTER
                     (PlanterLayer patient_partial [x00; x00])))
      (world0 (fun _ => 4))
      = (Returned tt, w') /\
    new_packet_outs (world0 (fun _ => 4)) w' = [(payload, ok)] /\
    length payload
      = length (raw (Ether.mk 0x080027bcfcb5 0x000400000000 ETHERTYPE_PLANTER
                              (PlanterLayer patient_partial [x00; x00]))) /\
    Ether_dissect payload
      = Returned (Ether.mk 0x080027bcfcb5 0x000400000000 ETHERTYPE_PLANTER
                           (PlanterLayer p' [x00; x00])) /\
    planter_wf p' /\ same_header patient_partial p' /\
    (forall i, 0 <= i < 5 -> feat p' i <> 0) /\
    (forall i, 5 <= i -> feat p' i = feat patient_partial i).
Proof.
  apply (parse_packet_on_the_wire 0x080027bcfcb5 0x000400000000
           patient_partial [x00; x00] (world0 (fun _ => 4))).
  - unfold mac_wf. simpl. lia.
  - unfold mac_wf. simpl. lia.
  - unfold planter_wf. simpl. lia.
Defined.

(** * The packet-in handler and the main loop *)

Lemma parse_packet_run scapy_Ether raw_payload w :
  exists w' outs rows msgs,
    parse_packet scapy_Ether raw_payload w = (Returned tt, w') /\
    inbound (switch_conn w') = inbound (switch_conn w) /\
    fails (switch_conn w') = fails (switch_conn w) /\
    clock w' = clock w /\
    packet_outs (switch_conn w') = packet_outs (switch_conn w) ++ outs /\
    csv_log w' = csv_log w ++ rows /\
    stdout w' = stdout w ++ msgs /\
    length outs = (if has_planter scapy_Ether raw_payload then 1 else 0)%nat.
Proof.
  unfold has_planter.
  destruct (scapy_Ether raw_payload) as [pkt|e] eqn:Hd.
  - destruct (get_Planter pkt) as [p|] eqn:Hp.
    + destruct (parse_packet_exact scapy_Ether raw_payload pkt p w Hd Hp)
        as (p' & w1 & Hloop & _ & _ & Hrun).
      destruct (impute_missing_trace _ _ _ _ _ _ _ Hloop) as [Hout _].
      destruct (impute_missing_run (clock w) (Planter.patient_id p) p w)
        as (q & b & w2 & Hloop' & _ & _ & _ & _ & _ & Hrows & _).
      rewrite Hloop in Hloop'. injection Hloop' as <- _ <-.
      eexists _, _, _, _. split; [exact Hrun|]. cbv zeta.
      cbn [switch_conn inbound fails clock packet_outs csv_log stdout].
      split; [reflexivity|]. split; [reflexivity|]. split; [reflexivity|].
      split; [reflexivity|]. split; [exact Hrows|].
      split; [rewrite Hout, <- app_assoc; reflexivity | reflexivity].
    + destruct (parse_packet_undecodable scapy_Ether raw_payload w) as (msg & Hrun & _).
      { unfold undecodable. rewrite Hd. exact Hp. }
      exists (mkWorld (rng w) (csv_log w) (stdout w ++ [msg]) (switch_conn w) (clock w)),
             [], [], [msg].
      rewrite !app_nil_r. repeat split. exact Hrun.
  - destruct (parse_packet_undecodable scapy_Ether raw_payload w) as (msg & Hrun & _).
    { unfold undecodable. rewrite Hd. exact I. }
    exists (mkWorld (rng w) (csv_log w) (stdout w ++ [msg]) (switch_conn w) (clock w)),
           [], [], [msg].
    rewrite !app_nil_r. repeat split. exact Hrun.
Qed.

Lemma handle_packet_in_run scapy_Ether w :
  exists w' outs rows msgs,
    handle_packet_in scapy_Ether w = (Returned tt, w') /\
    inbound (switch_conn w') = tail (inbound (switch_conn w)) /\
    fails (switch_conn w') = fails (switch_conn w) /\
    clock w' = clock w /\
    packet_outs (switch_conn w') = packet_outs (switch_conn w) ++ outs /\
    csv_log w' = csv_log w ++ rows /\
    stdout w' = stdout w ++ msgs /\
    length outs =
      length (planter_payloads scapy_Ether (firstn 1 (inbound (switch_conn w)))).
Proof.
  unfold handle_packet_in, try_except_rpc. unfold bind at 1, PacketIn.
  destruct (inbound (switch_conn w)) as [|[|payload|code] pending] eqn:Hq.
  - exists w, [], [], []. rewrite !app_nil_r, Hq. repeat split.
  - eexists _, [], [], []. split; [reflexivity|]. cbn. rewrite !app_nil_r.
    repeat split.
  - unfold bind at 1, print at 1.
    match goal with
    | |- context [parse_packet scapy_Ether payload ?w1] =>
        destruct (parse_packet_run scapy_Ether payload w1)
          as (w' & outs & rows & msgs & Hrun & Hi & Hf & Hk & Ho & Hl & Hs & Hn)
    end.
    rewrite Hrun. cbn [switch_conn inbound fails clock packet_outs csv_log stdout] in *.
    exists w', outs, rows, (ReceivedPacketIn (length payload) :: msgs).
    split; [reflexivity|]. split; [exact Hi|]. split; [exact Hf|].
    split; [exact Hk|]. split; [exact Ho|]. split; [exact Hl|].
    split; [rewrite Hs, <- app_assoc; reflexivity|].
    rewrite Hn. unfold planter_payloads. cbn [firstn flat_map].
    rewrite app_nil_r. destruct (has_planter scapy_Ether payload); reflexivity.
  - eexists _, [], [], [GrpcError (RpcError code)].
    split; [reflexivity|]. cbn. rewrite !app_nil_r. repeat split.
Qed.

Lemma planter_payloads_app scapy_Ether l1 l2 :
  planter_payloads scapy_Ether (l1 ++ l2)
  = planter_payloads scapy_Ether l1 ++ planter_payloads scapy_Ether l2.
Proof. unfold planter_payloads. apply flat_map_app. Qed.

Lemma main_loop_run scapy_Ether rounds :
  forall w, exists w' outs rows msgs,
    main_loop scapy_Ether rounds w = (Returned tt, w') /\
    inbound (switch_conn w') = skipn rounds (inbound (switch_conn w)) /\
    fails (switch_conn w') = fails (switch_conn w) /\
    clock w' = clock w /\
    packet_outs (switch_conn w') = packet_outs (switch_conn w) ++ outs /\
    csv_log w' = csv_log w ++ rows /\
    stdout w' = stdout w ++ msgs /\
    length outs =
      length (planter_payloads scapy_Ether (firstn rounds (inbound (switch_conn w)))).
Proof.
  induction rounds as [|n IH]; intros w.
  - exists w, [], [], []. cbn [main_loop]. rewrite !app_nil_r. repeat split.
  - cbn [main_loop]. unfold bind at 1.
    destruct (handle_packet_in_run scapy_Ether w)
      as (w1 & o1 & r1 & m1 & Hrun1 & Hi1 & Hf1 & Hk1 & Ho1 & Hl1 & Hs1 & Hn1).
    rewrite Hrun1.
    destruct (IH w1)
      as (w2 & o2 & r2 & m2 & Hrun2 & Hi2 & Hf2 & Hk2 & Ho2 & Hl2 & Hs2 & Hn2).
    exists w2, (o1 ++ o2), (r1 ++ r2), (m1 ++ m2).
    split; [exact Hrun2|].
    split.
    { rewrite Hi2, Hi1. destruct (inbound (switch_conn w)); [|reflexivity].
      cbn. apply drop_nil. }
    split; [congruence|]. split; [congruence|].
    split; [rewrite Ho2, Ho1, app_assoc; reflexivity|].
    split; [rewrite Hl2, Hl1, app_assoc; reflexivity|].
    split; [rewrite Hs2, Hs1, app_assoc; reflexivity|].
    rewrite length_app, Hn1, Hn2, Hi1.
    destruct (inbound (switch_conn w)) as [|r q]; [cbn; rewrite take_nil; reflexivity|].
    change (firstn (S n) (r :: q)) with ([r] ++ firstn n q).
    rewrite planter_payloads_app, length_app. reflexivity.
Qed.

(** X9. Nothing escapes the handlers: whatever the dissector does with the
    payloads, whatever the queue of PacketIns holds and whatever calls the
    connection fails, [parse_packet], [handle_packet_in] and any number of
    rounds of the main loop return normally. *)
Theorem controller_never_raises (scapy_Ether : list byte -> outcome Ether.t) :
  (forall raw_payload w,
     fst (parse_packet scapy_Ether raw_payload w) = Returned tt) /\
  (forall w, fst (handle_packet_in scapy_Ether w) = Returned tt) /\
  (forall rounds w, fst (main_loop scapy_Ether rounds w) = Returned tt).
Proof.
  split; [|split].
  - intros raw_payload w.
    destruct (parse_packet_run scapy_Ether raw_payload w) as (w' & ? & ? & ? & -> & _).
    reflexivity.
  - intros w.
    destruct (handle_packet_in_run scapy_Ether w) as (w' & ? & ? & ? & -> & _).
    reflexivity.
  - intros rounds w.
    destruct (main_loop_run scapy_Ether rounds w) as (w' & ? & ? & ? & -> & _).
    reflexivity.
Qed.

(** X10. The main loop takes one pending PacketIn per round, in order, and
    makes exactly one [PacketOut] call for each of them that carries a
    Planter header and none for the others; once the queue is empty further
    rounds send nothing. *)
Theorem main_loop_answers_each_vector_once
    (scapy_Ether : list byte -> outcome Ether.t) (rounds : nat) (w : World) :
  let w' := snd (main_loop scapy_Ether rounds w) in
  let pending := inbound (switch_conn w) in
  inbound (switch_conn w') = skipn rounds pending /\
  length (new_packet_outs w w')
    = length (planter_payloads scapy_Ether (firstn rounds pending)) /\
  ((length pending <= rounds)%nat ->
   inbound (switch_conn w') = [] /\
   length (new_packet_outs w w') = length (planter_payloads scapy_Ether pending)).
Proof.
  destruct (main_loop_run scapy_Ether rounds w)
    as (w' & outs & rows & msgs & Hrun & Hi & _ & _ & Ho & _ & _ & Hn).
  cbv zeta. rewrite Hrun. cbn [snd].
  rewrite (new_packet_outs_app _ _ _ Ho).
  split; [exact Hi|]. split; [exact Hn|].
  intros Hlen. rewrite Hi, Hn.
  rewrite drop_ge, take_ge by exact Hlen. split; reflexivity.
Qed.

(** X11. The main loop only ever adds to what is on record: the audit log,
    the list of [PacketOut] calls and standard output after any number of
    rounds extend those before; the clock is not touched. *)
Theorem main_loop_append_only
    (scapy_Ether : list byte -> outcome Ether.t) (rounds : nat) (w : World) :
  let w' := snd (main_loop scapy_Ether rounds w) in
  csv_log w `prefix_of` csv_log w' /\
  packet_outs (switch_conn w) `prefix_of` packet_outs (switch_conn w') /\
  stdout w `prefix_of` stdout w' /\
  clock w' = clock w.
Proof.
  destruct (main_loop_run scapy_Ether rounds w)
    as (w' & outs & rows & msgs & Hrun & _ & _ & Hk & Ho & Hl & Hs & _).
  cbv zeta. rewrite Hrun. cbn [snd].
  split; [exists rows; exact Hl|]. split; [exists outs; exact Ho|].
  split; [exists msgs; exact Hs | exact Hk].
Qed.

(** X12. A round in which [PacketIn] delivers no packet: when it returns
    [None] (or nothing is pending) the handler does nothing; when it raises
    an RPC error the handler catches it and prints it.  Either way no
    [PacketOut] is made, the audit log and the generator are untouched, and
    the round is over. *)
Theorem handle_packet_in_without_packet
    (scapy_Ether : list byte -> outcome Ether.t) (w : World) :
  (forall payload, head (inbound (switch_conn w)) <> Some (InPacket payload)) ->
  exists w',
    handle_packet_in scapy_Ether w = (Returned tt, w') /\
    rng w' = rng w /\ csv_log w' = csv_log w /\ clock w' = clock w /\
    packet_outs (switch_conn w') = packet_outs (switch_conn w) /\
    inbound (switch_conn w') = tail (inbound (switch_conn w)) /\
    printed w w' =
      match head (inbound (switch_conn w)) with
      | Some (InRpcError code) => [GrpcError (RpcError code)]
      | _ => []
      end.
Proof.
  intros Hno. unfold handle_packet_in, try_except_rpc. unfold bind at 1, PacketIn.
  destruct (inbound (switch_conn w)) as [|[|payload|code] pending] eqn:Hq.
  - exists w. rewrite Hq. repeat split.
    apply printed_app. symmetry. apply app_nil_r.
  - eexists. split; [reflexivity|]. cbn. repeat split.
    apply printed_app. symmetry. apply app_nil_r.
  - exfalso. apply (Hno payload). reflexivity.
  - eexists. split; [reflexivity|]. cbn. repeat split.
    apply printed_app. reflexivity.
Qed.

Lemma handle_packet_in_without_packet_witness :
  exists w',
    handle_packet_in Ether_dissect
      (set_inbound (world0 (fun _ => 0)) [InRpcError 14; InNone]) = (Returned tt, w') /\
    rng w' = rng (set_inbound (world0 (fun _ => 0)) [InRpcError 14; InNone]) /\
    csv_log w' = [] /\ clock w' = 0 /\
    packet_outs (switch_conn w') = [] /\
    inbound (switch_conn w') = [InNone] /\
    printed (set_inbound (world0 (fun _ => 0)) [InRpcError 14; InNone]) w'
      = [GrpcError (RpcError 14)].
Proof.
  apply (handle_packet_in_without_packet Ether_dissect
           (set_inbound (world0 (fun _ => 0)) [InRpcError 14; InNone])).
  intros payload. simpl. discriminate.
Defined.

(** * More on the heartbeat sender *)

Lemma heartbeat_loop_frame ticks :
  forall w,
    let r := heartbeat_loop ticks w in
    fst r = Returned tt /\
    rng (snd r) = rng w /\ csv_log (snd r) = csv_log w /\
    inbound (switch_conn (snd r)) = inbound (switch_conn w) /\
    fails (switch_conn (snd r)) = fails (switch_conn w) /\
    length (packet_outs (switch_conn (snd r)))
      = (length (packet_outs (switch_conn w)) +
         ticks * Z.to_nat NUM_PATIENTS)%nat.
Proof.
  induction ticks as [|n IH]; intros w; cbv zeta.
  - cbn. repeat split. lia.
  - cbn [heartbeat_loop]. unfold bind at 1 2 3 4 5 6. rewrite heartbeat_tick_run.
    match goal with
    | |- context [heartbeat_loop n ?w1] =>
        destruct (IH w1) as (Hr & Hg & Hl & Hi & Hf & Hn)
    end.
    cbn [rng csv_log switch_conn inbound fails packet_outs] in *.
    split; [exact Hr|]. split; [exact Hg|]. split; [exact Hl|].
    split; [exact Hi|]. split; [exact Hf|].
    rewrite Hn, length_app.
    assert (length (heartbeat_calls (fails (switch_conn w))
                      (length (packet_outs (switch_conn w))) (range NUM_PATIENTS))
            = Z.to_nat NUM_PATIENTS) as ->.
    { rewrite <- (length_map fst), heartbeat_calls_frames, length_map.
      unfold range. rewrite length_map, length_seq. reflexivity. }
    lia.
Qed.

(** X13. The heartbeat loop never raises, whatever calls the connection
    fails, and it keeps to the connection and standard output: after any
    number of ticks the audit log, the random generator and the pending
    PacketIns are as they were, and exactly [NUM_PATIENTS] calls per tick
    were added to the connection's record. *)
Theorem heartbeat_loop_keeps_to_itself (ticks : nat) (w : World) :
  let w' := snd (heartbeat_loop ticks w) in
  fst (heartbeat_loop ticks w) = Returned tt /\
  rng w' = rng w /\ csv_log w' = csv_log w /\
  inbound (switch_conn w') = inbound (switch_conn w) /\
  fails (switch_conn w') = fails (switch_conn w) /\
  length (new_packet_outs w w') = (ticks * 2000)%nat.
Proof.
  destruct (heartbeat_loop_frame ticks w) as (Hr & Hg & Hl & Hi & Hf & Hn).
  cbv zeta. split; [exact Hr|]. split; [exact Hg|]. split; [exact Hl|].
  split; [exact Hi|]. split; [exact Hf|].
  unfold new_packet_outs. rewrite length_drop, Hn.
  change (Z.to_nat NUM_PATIENTS) with 2000%nat. lia.
Qed.

Lemma heartbeat_pkt_wf pid : 0 <= pid < 2^32 -> frame_wf (heartbeat_pkt pid).
Proof.
  intros Hp. unfold frame_wf, heartbeat_pkt, mac_wf, sensor_wf.
  cbn [Ether.dst Ether.src Ether.type Ether.payload Sensor.patient_id
       Sensor.sensor_id Sensor.timestamp Sensor.feature_value].
  repeat split; try lia; reflexivity.
Qed.

(** X14. A heartbeat frame is 30 bytes long for every patient id; for every
    id that fits the 32-bit field it dissects back to the Sensor header it
    was built from, so that different patients get different frames; the
    2000 frames of a tick are pairwise distinct. *)
Theorem heartbeat_frames_distinct :
  (forall pid, length (raw (heartbeat_pkt pid)) = 30%nat) /\
  (forall pid, 0 <= pid < 2^32 ->
     Ether_dissect (raw (heartbeat_pkt pid)) = Returned (heartbeat_pkt pid)) /\
  (forall pid1 pid2, 0 <= pid1 < 2^32 -> 0 <= pid2 < 2^32 ->
     raw (heartbeat_pkt pid1) = raw (heartbeat_pkt pid2) -> pid1 = pid2) /\
  NoDup heartbeat_frames.
Proof.
  assert (forall pid, 0 <= pid < 2^32 ->
            Ether_dissect (raw (heartbeat_pkt pid)) = Returned (heartbeat_pkt pid))
    as Hdis by (intros pid Hp; apply Ether_dissect_raw, heartbeat_pkt_wf, Hp).
  assert (forall pid1 pid2, 0 <= pid1 < 2^32 -> 0 <= pid2 < 2^32 ->
            raw (heartbeat_pkt pid1) = raw (heartbeat_pkt pid2) -> pid1 = pid2)
    as Hinj.
  { intros pid1 pid2 H1 H2 Heq.
    pose proof (Hdis pid1 H1) as D1. rewrite Heq, (Hdis pid2 H2) in D1.
    injection D1 as D1. symmetry. exact D1. }
  split; [|split; [exact Hdis | split; [exact Hinj|]]].
  - intros pid. unfold raw, heartbeat_pkt, build_layer, Sensor.build.
    cbn [Ether.dst Ether.src Ether.type Ether.payload].
    rewrite !length_app, !length_be_encode. reflexivity.
  - unfold heartbeat_frames. apply NoDup_fmap_2_strong.
    + intros pid1 pid2 H1%range_elem H2%range_elem. unfold NUM_PATIENTS in *.
      apply Hinj; lia.
    + unfold range. apply NoDup_fmap_2; [intros a b; lia | apply NoDup_seq].
Qed.

(** X15. The controller does not answer Sensor frames: a well-formed frame
    that carries a Sensor header (a sensor reading, or one of the
    controller's own heartbeats) dissects to a frame without Planter header,
    and [parse_packet] prints that it ignores it and sends nothing. *)
Theorem parse_packet_ignores_sensor_frames
    (pkt : Ether.t) (s : Sensor.t) (rest : list byte) (w : World) :
  frame_wf pkt -> Ether.payload pkt = SensorLayer s rest ->
  parse_packet Ether_dissect (raw pkt) w =
    (Returned tt,
     mkWorld (rng w) (csv_log w) (stdout w ++ [NoPlanterHeader])
             (switch_conn w) (clock w)).
Proof.
  intros Hwf Hs.
  unfold parse_packet, try_except, parse_packet_body.
  unfold bind at 1, dissect_Ether. rewrite (Ether_dissect_raw pkt Hwf).
  unfold get_Planter. rewrite Hs. reflexivity.
Qed.

Lemma parse_packet_ignores_sensor_frames_witness :
  parse_packet Ether_dissect (raw (heartbeat_pkt 1999)) (world0 (fun _ => 0)) =
    (Returned tt,
     mkWorld (rng (world0 (fun _ => 0))) [] ([] ++ [NoPlanterHeader])
             (switch_conn (world0 (fun _ => 0))) 0).
Proof.
  apply (parse_packet_ignores_sensor_frames (heartbeat_pkt 1999)
           (Sensor.mk 1999 999 0 0) [] (world0 (fun _ => 0))).
  - unfold frame_wf, mac_wf, sensor_wf. simpl. unfold ETHERTYPE_SENSOR. lia.
  - reflexivity.
Defined.

Lemma heartbeat_all_fail fl e pids :
  (forall n payload, fl n payload = Some e) ->
  forall n,
    heartbeat_errors fl n pids = map (fun pid => ErrorHeartbeat pid e) pids /\
    heartbeat_calls fl n pids = map (fun pid => (raw (heartbeat_pkt pid), false)) pids.
Proof.
  intros Hall. induction pids as [|pid pids IH]; intros n; [split; reflexivity|].
  cbn [heartbeat_errors heartbeat_calls map]. rewrite Hall.
  destruct (IH (S n)) as [-> ->]. split; reflexivity.
Qed.

(** X16. The tick's closing message does not depend on the sends: when the
    connection fails every call, the tick prints one error per patient, then
    still reports the heartbeats as sent and sleeps [HEARTBEAT_NS]; all
    [NUM_PATIENTS] calls were made and none went through. *)
Theorem heartbeat_tick_when_every_send_fails (w : World) (e : Exn) :
  (forall n payload, fails (switch_conn w) n payload = Some e) ->
  let w' := snd (heartbeat_tick w) in
  fst (heartbeat_tick w) = Returned tt /\
  new_packet_outs w w'
    = map (fun pid => (raw (heartbeat_pkt pid), false)) (range NUM_PATIENTS) /\
  printed w w'
    = map (fun pid => ErrorHeartbeat pid e) (range NUM_PATIENTS)
      ++ [SentHeartbeats (clock w)] /\
  clock w' = clock w + HEARTBEAT_NS.
Proof.
  intros Hall. cbv zeta. rewrite heartbeat_tick_run. cbn [fst snd clock].
  destruct (heartbeat_all_fail (fails (switch_conn w)) e (range NUM_PATIENTS) Hall
              (length (packet_outs (switch_conn w)))) as [He Hc].
  split; [reflexivity|]. split; [|split; [|reflexivity]].
  - apply new_packet_outs_app. cbn [switch_conn packet_outs]. rewrite Hc. reflexivity.
  - apply printed_app. cbn [stdout]. rewrite He. reflexivity.
Qed.

Lemma heartbeat_tick_when_every_send_fails_witness :
  clock (snd (heartbeat_tick
                (mkWorld (random.mk (fun _ => 0) 0) [] []
                         (mkConn [] (fun _ _ => Some (RpcError 14)) []) 100)))
  = 100 + HEARTBEAT_NS.
Proof.
  apply (heartbeat_tick_when_every_send_fails
           (mkWorld (random.mk (fun _ => 0) 0) [] []
                    (mkConn [] (fun _ _ => Some (RpcError 14)) []) 100)
           (RpcError 14)).
  intros n payload. reflexivity.
Defined.

(** * Reproducibility *)

Lemma impute_value_frame sensor_id w :
  impute_value sensor_id w =
    (fst (impute_value sensor_id
            (mkWorld (rng w) [] [] (mkConn [] (fun _ _ => None) []) 0)),
     mkWorld (rng (snd (impute_value sensor_id
                          (mkWorld (rng w) [] [] (mkConn [] (fun _ _ => None) []) 0))))
             (csv_log w) (stdout w) (switch_conn w) (clock w)).
Proof.
  unfold impute_value.
  repeat (match goal with
          | |- context [if ?a =? ?b then _ else _] => destruct (Z.eqb_spec a b)
          end); destruct w; reflexivity.
Qed.

Lemma impute_loop_fill t pid xs :
  Forall (fun x => 0 <= x < 10) xs ->
  forall p b w, exists b' w',
    for_each xs (impute_slot t pid) (p, b) w
      = (Returned (fst (fill_slots xs p (rng w)), b'), w') /\
    rng w' = snd (fill_slots xs p (rng w)).
Proof.
  induction xs as [|x xs IH]; intros Hr p b w.
  - exists b, w. split; reflexivity.
  - apply Forall_cons in Hr as [Hx Hr].
    cbn [for_each fill_slots]. unfold bind at 1, impute_slot at 1.
    destruct (existsb (Z.eqb x) [5; 6; 7; 8; 9]) eqn:Hskip.
    + unfold ret at 1. apply IH, Hr.
    + unfold bind at 1, getattr. rewrite getattr_in_range by lia. unfold ret at 1.
      destruct (feat p x =? 0) eqn:H0.
      * destruct (impute_value_run x
                    (mkWorld (rng w) [] [] (mkConn [] (fun _ _ => None) []) 0))
          as (v & g & Hval).
        unfold bind at 1. rewrite (impute_value_frame x w), Hval.
        cbn [fst snd rng]. unfold bind at 1, log_imputation.
        unfold bind at 1, print at 1. unfold ret at 1.
        match goal with
        | |- context [for_each xs _ ?st ?w1] =>
            destruct (IH Hr (Planter.setattr p x v) true w1) as (b' & w' & Hrun & Hg)
        end.
        exists b', w'. split; [exact Hrun | exact Hg].
      * unfold ret at 1. apply IH, Hr.
Qed.

(** X17. The vector sent back is a function of the vector received and of
    the generator's state alone: two runs of the loop from worlds whose
    generators agree give the same vector and leave the generators in the
    same state, whatever the reception times, patient ids, logs, outputs and
    connections of the two worlds. *)
Theorem imputation_reproducible
    (t1 t2 pid1 pid2 : Z) (p : Planter.t) (w1 w2 : World) :
  rng w1 = rng w2 ->
  exists p' b1 b2 u1 u2,
    impute_missing t1 pid1 p w1 = (Returned (p', b1), u1) /\
    impute_missing t2 pid2 p w2 = (Returned (p', b2), u2) /\
    rng u1 = rng u2 /\
    p' = fst (fill_slots (range 10) p (rng w1)).
Proof.
  intros Hg.
  assert (Forall (fun x => 0 <= x < 10) (range 10)) as Hr
      by (apply Forall_forall; intros x Hx; apply range_10_elem, Hx).
  destruct (impute_loop_fill t1 pid1 (range 10) Hr p false w1)
    as (b1 & u1 & Hrun1 & Hg1).
  destruct (impute_loop_fill t2 pid2 (range 10) Hr p false w2)
    as (b2 & u2 & Hrun2 & Hg2).
  rewrite <- Hg in Hrun2, Hg2.
  exists (fst (fill_slots (range 10) p (rng w1))), b1, b2, u1, u2.
  split; [exact Hrun1|]. split; [exact Hrun2|].
  split; [congruence | reflexivity].
Qed.

Lemma imputation_reproducible_witness :
  exists p' b1 b2 u1 u2,
    impute_missing 0 42 patient_partial (world0 (fun n => Z.of_nat n))
      = (Returned (p', b1), u1) /\
    impute_missing 77 43 patient_partial
      (mkWorld (random.mk (fun n => Z.of_nat n) 0) [mkRow 1 2 3 0 4] [NoPlanterHeader]
               (mkConn [] (fun _ _ => Some (RpcError 14)) [InNone]) 500)
      = (Returned (p', b2), u2) /\
    rng u1 = rng u2 /\
    p' = fst (fill_slots (range 10) patient_partial
                (rng (world0 (fun n => Z.of_nat n)))).
Proof.
  apply (imputation_reproducible 0 77 42 43 patient_partial
           (world0 (fun n => Z.of_nat n))
           (mkWorld (random.mk (fun n => Z.of_nat n) 0) [mkRow 1 2 3 0 4]
                    [NoPlanterHeader]
                    (mkConn [] (fun _ _ => Some (RpcError 14)) [InNone]) 500)).
  reflexivity.
Defined.
